(** * Yellow Pages scraper: the asynchronous crawler, embedded in Rocq

    Source files embedded here:
    - [src/ScrapersPre/GScraper.py]   (variant [GScraper])
    - [src/ScrapersPre/GSscraper.py]  (variant [GSscraper])

    The two files hold the same four functions ([fetch_and_parse],
    [get_business_urls_from_page], [scrape_business_details],
    [run_scraper]); the places where they differ are marked by a match on
    the [variant].

    Modelling conventions.
    - A Python [str] is a Rocq [string]; a character is read as a code
      point in U+0000..U+00FF.
    - A Python exception is a value [Raise e] of the [result] type; a
      [try]/[except] is a match on it.
    - The outside world (HTTP, HTML parser, user-agent pool, spreadsheet
      writer) is a record of oracles; each call to one of them is appended
      to a trace of events, and an oracle may answer according to the
      trace so far.
    - [asyncio.gather] over the tasks of a phase is modelled by running
      the tasks one after the other in task order, which is the order in
      which [gather] returns their results.  Interleavings of tasks and
      the semaphore are not part of the model.
    - [logging] calls do not influence control flow and are left out. *)

From Stdlib Require Import Ascii String QArith DecimalString.
From stdpp Require Import gmap strings list.

Local Open Scope string_scope.
Local Open Scope list_scope.

(** ** Python strings *)

Module Py.

(** [str.isspace] on the code points below 256. *)
Definition isspace (c : ascii) : bool :=
  let n := Ascii.N_of_ascii c in
  ((9 <=? n) && (n <=? 13) || (28 <=? n) && (n <=? 32)
   || (n =? 133) || (n =? 160))%N.

Fixpoint lstrip (s : string) : string :=
  match s with
  | EmptyString => EmptyString
  | String c s' => if isspace c then lstrip s' else s
  end.

Fixpoint rstrip (s : string) : string :=
  match s with
  | EmptyString => EmptyString
  | String c s' =>
      match rstrip s' with
      | EmptyString => if isspace c then EmptyString else String c EmptyString
      | r => String c r
      end
  end.

(** [s.strip()] *)
Definition strip (s : string) : string := rstrip (lstrip s).

(** [sep.join(l)] *)
Definition join (sep : string) (l : list string) : string := String.concat sep l.

(** Truth value of a [str]: [if s:] *)
Definition nonempty (s : string) : bool :=
  match s with EmptyString => false | String _ _ => true end.

(** [s.startswith(p)] *)
Fixpoint startswith (p s : string) : bool :=
  match p, s with
  | EmptyString, _ => true
  | String a p', String b s' => if Ascii.eqb a b then startswith p' s' else false
  | String _ _, EmptyString => false
  end.

(** [s.replace(old, new)] for a non-empty [old]: scan from the left and
    replace every non-overlapping occurrence.  [skip] counts the
    characters of a matched occurrence that are still to be dropped. *)
Fixpoint replace_from (old new : string) (skip : nat) (s : string) : string :=
  match s with
  | EmptyString => EmptyString
  | String c s' =>
      match skip with
      | S k => replace_from old new k s'
      | O =>
          if startswith old s
          then new +:+ replace_from old new (String.length old - 1) s'
          else String c (replace_from old new 0 s')
      end
  end.

Definition replace (old new s : string) : string := replace_from old new 0 s.

(** [re.sub("[...]", "", s)] for a character class given as a list. *)
Fixpoint re_sub_class (cls : list ascii) (s : string) : string :=
  match s with
  | EmptyString => EmptyString
  | String c s' =>
      if existsb (Ascii.eqb c) cls then re_sub_class cls s'
      else String c (re_sub_class cls s')
  end.

(** Lower-casing of one character as [re.IGNORECASE] compares the letters
    A-Z and a-z; the other code points below 256 match only themselves
    against an ASCII pattern. *)
Definition lower (c : ascii) : ascii :=
  let n := Ascii.N_of_ascii c in
  if ((65 <=? n) && (n <=? 90))%N then Ascii.ascii_of_N (n + 32) else c.

(** [re.search("^" + p + ".*", s, re.IGNORECASE)] for a literal [p]: the
    anchor [^] pins the match to the start of [s] and [.*] accepts any
    rest, the empty one included. *)
Fixpoint re_search_prefix_ignorecase (p s : string) : bool :=
  match p, s with
  | EmptyString, _ => true
  | String a p', String b s' =>
      if Ascii.eqb (lower a) (lower b)
      then re_search_prefix_ignorecase p' s' else false
  | String _ _, EmptyString => false
  end.

(** [str(n)] for a natural number. *)
Definition str (n : nat) : string := NilZero.string_of_uint (Nat.to_uint n).

(** Python exceptions that the crawler can meet. *)
Inductive exn :=
| KeyError (key : string)
| IndexError
| TypeError
| AttributeError
| XPathEvalError
| ParserError
| ClientError
| TimeoutError
| OSError
| ImportError
| OtherException.

Inductive result (A : Type) :=
| Ok (a : A)
| Raise (e : exn).
Arguments Ok {A} a.
Arguments Raise {A} e.

Definition rbind {A B} (r : result A) (k : A -> result B) : result B :=
  match r with
  | Ok a => k a
  | Raise e => Raise e
  end.

Fixpoint rmapM {A B} (f : A -> result B) (l : list A) : result (list B) :=
  match l with
  | [] => Ok []
  | x :: l' =>
      rbind (f x) (fun y => rbind (rmapM f l') (fun ys => Ok (y :: ys)))
  end.

End Py.
Export Py.

Notation "x <~ r ;; k" := (rbind r (fun x => k))
  (at level 20, r at level 99, k at level 200, only parsing).


(** ** Parsed documents as lxml shows them *)

(** An element node: what [el.text_content()] and [el.get(name, default)]
    return for it. *)
Record element := {
  text_content : string;
  attrib : gmap string string
}.

(** An item of the list that [tree.xpath(q)] returns: an element, or a
    string (the result of [text()] or of an attribute step). *)
Inductive xitem :=
| XElement (el : element)
| XString (s : string).

(** The value of [tree.xpath(q)]: a list of items, or the scalar value of
    an XPath function ([string(..)], [boolean(..)], [count(..)]). *)
Inductive xvalue :=
| XNodes (items : list xitem)
| XStr (s : string)
| XBool (b : bool)
| XFloat (x : Q).

(** A parsed document is seen through [tree.xpath]: it raises (for
    instance [XPathEvalError] on an invalid query) or returns a value. *)
Record tree := { xpath : string -> result xvalue }.

(** Truth value of an XPath result: [if elements:] *)
Definition truthy (v : xvalue) : bool :=
  match v with
  | XNodes items => match items with [] => false | _ :: _ => true end
  | XStr s => nonempty s
  | XBool b => b
  | XFloat x => negb (Qeq_bool x 0)
  end.

(** The characters of a [str], each a [str] of length one. *)
Fixpoint chars (s : string) : list string :=
  match s with
  | EmptyString => []
  | String c s' => String c EmptyString :: chars s'
  end.

(** [for x in v]: a list yields its items, a [str] its characters, and a
    [bool] or a [float] is not iterable. *)
Definition py_iter (v : xvalue) : result (list xitem) :=
  match v with
  | XNodes items => Ok items
  | XStr s => Ok (map XString (chars s))
  | XBool _ | XFloat _ => Raise TypeError
  end.

(** [el.text_content()]: a [str] has no such method. *)
Definition item_text_content (x : xitem) : result string :=
  match x with
  | XElement el => Ok (text_content el)
  | XString _ => Raise AttributeError
  end.

(** [' '.join(el.text_content() for el in v).strip()] *)
Definition joined_text (v : xvalue) : result string :=
  items <~ py_iter v ;;
  texts <~ rmapM item_text_content items ;;
  Ok (strip (join " " texts)).

(** [v[0]] *)
Definition first_item (v : xvalue) : result xitem :=
  match v with
  | XNodes [] => Raise IndexError
  | XNodes (x :: _) => Ok x
  | XStr EmptyString => Raise IndexError
  | XStr (String c _) => Ok (XString (String c EmptyString))
  | XBool _ | XFloat _ => Raise TypeError
  end.

(** [x.get(name, default)] *)
Definition item_get (x : xitem) (name default : string) : result string :=
  match x with
  | XElement el => Ok (from_option id default (attrib el !! name))
  | XString _ => Raise AttributeError
  end.

(** ** Business records *)

(** The dictionary built by [scrape_business_details]; its keys are fixed,
    ["Map and direction"] and ["Review count"] are spelt with underscores. *)
Record details := {
  Business : string;
  Contact : string;
  Email : string;
  Address : string;
  Map_and_direction : string;
  Review : string;
  Review_count : string;
  Hyperlink : string;
  Images : string;
  Website : string
}.

(** ** The outside world and the trace of calls to it *)

Inductive event :=
| EvSleep (min_sec max_sec : Q)          (* await asyncio.sleep(randomTime(a, b)) *)
| EvGet (url user_agent : string)        (* session.get(url, headers, timeout=20) *)
| EvParse (content : string)             (* html.fromstring(content) *)
| EvCreatePath (dir_path : string)       (* create_path(OUTPUT_DIR) *)
| EvToExcel (output_file : string) (rows : list details). (* df.to_excel(..) *)

Definition trace := list event.

(** An HTTP response that reached the client: its status and what
    [await response.text()] gives. *)
Record response := {
  status : Z;
  text : result string
}.

Record World := {
  (** the selector table loaded from [scrapers/selectors.yml] *)
  SELECTORS : gmap string string;
  (** [userAgents()] *)
  userAgents : trace -> result string;
  (** [session.get(url, headers={'User-Agent': ua}, timeout=20)]: raises
      ([ClientError], [TimeoutError], ..) or answers *)
  session_get : trace -> string -> string -> result response;
  (** [lxml.html.fromstring] *)
  html_fromstring : string -> result tree;
  (** [tools.functionalities.yp_lists], imported by GScraper.py *)
  tools_yp_lists : string -> result (list string);
  (** [create_path(OUTPUT_DIR)] *)
  create_path : trace -> string -> result unit;
  (** [pd.DataFrame(rows).to_excel(output_file, index=False)] *)
  to_excel : trace -> string -> list details -> result unit
}.

(** Which of the two source files is run. *)
Inductive variant := GScraper | GSscraper.

(** ** Computations: a trace of events and a result or an exception *)

Definition M (A : Type) : Type := trace -> result A * trace.

Definition ret {A} (a : A) : M A := fun t => (Ok a, t).

Definition bind {A B} (m : M A) (k : A -> M B) : M B :=
  fun t =>
    match m t with
    | (Ok a, t') => k a t'
    | (Raise e, t') => (Raise e, t')
    end.

Notation "x <- m ;; k" := (bind m (fun x => k))
  (at level 20, m at level 99, k at level 200, only parsing).

(** A pure step that may raise. *)
Definition lift {A} (r : result A) : M A := fun t => (r, t).

(** [try: m  except Exception as e: h e] *)
Definition try_except {A} (m : M A) (h : exn -> M A) : M A :=
  fun t =>
    match m t with
    | (Ok a, t') => (Ok a, t')
    | (Raise e, t') => h e t'
    end.

(** A call to an oracle of the world, recorded in the trace. *)
Definition call {A} (ev : event) (answer : trace -> result A) : M A :=
  fun t => (answer t, t ++ [ev]).

(** [await asyncio.gather] over the tasks [create_task(f(x)) for x in l]:
    the results in task order; an exception of a task is raised by
    [gather]. *)
Fixpoint gather {A B} (f : A -> M B) (l : list A) : M (list B) :=
  match l with
  | [] => ret []
  | x :: l' => y <- f x ;; ys <- gather f l' ;; ret (y :: ys)
  end.

(** [await asyncio.sleep(randomTime(min_sec, max_sec))]; the delay itself
    is drawn by [randomTime] and is not part of the model. *)
Definition sleep (min_sec max_sec : Q) : M unit :=
  call (EvSleep min_sec max_sec) (fun _ => Ok tt).

(** ** The crawler *)

Definition OUTPUT_DIR : string := "Yellowpage_database".

Definition origin : string := "https://www.yellowpages.com".

(** [response.raise_for_status()]: aiohttp raises [ClientResponseError], a
    [ClientError], when the status is 400 or more. *)
Definition raise_for_status (r : response) : result unit :=
  if (400 <=? status r)%Z then Raise ClientError else Ok tt.

(** The characters that [run_scraper] removes from the category, the
    class of its regular expression: backslash, slash, star, question
    mark, colon, double quote, the two angle brackets and the bar. *)
Definition unsafe_chars : list ascii :=
  ["\"; "/"; "*"; "?"; ":"; ascii_of_nat 34; "<"; ">"; "|"]%char.

(** GSscraper.py, [yp_lists]: pages 1 to 9 of the search. *)
Definition GS_yp_lists (yp_url : string) : list string :=
  map (fun num => yp_url +:+ "&page=" +:+ str num) (seq 1 9).

Section Crawler.

Variable W : World.
Variable v : variant.

(** [SELECTORS[key]] *)
Definition selector (key : string) : result string :=
  match SELECTORS W !! key with
  | Some q => Ok q
  | None => Raise (KeyError key)
  end.

(** [fetch_and_parse(session, url)].  GSscraper.py sleeps before the
    [try]; GScraper.py starts with the [try]. *)
Definition fetch_and_parse (url : string) : M (option tree) :=
  _ <- match v with
       | GSscraper => sleep 2.0 5.0
       | GScraper => ret tt
       end ;;
  try_except
    (user_agent <- (fun t => (userAgents W t, t)) ;;
     response <- call (EvGet url user_agent)
                      (fun t => session_get W t url user_agent) ;;
     _ <- lift (raise_for_status response) ;;
     content <- lift (text response) ;;
     if nonempty content
     then tree <- call (EvParse content) (fun _ => html_fromstring W content) ;;
          ret (Some tree)
     else ret None)
    (fun e =>
       match e with
       | ClientError => ret None      (* except aiohttp.ClientError *)
       | TimeoutError => ret None     (* except asyncio.TimeoutError *)
       | _ => ret None                (* except Exception *)
       end).

(** The three steps of the [try] block of [get_business_urls_from_page]. *)

(** [category_elements = tree.xpath(SELECTORS['categories'])] and the
    [if category_elements:] that follows; [None] when nothing matched. *)
Definition listing_category (tr : tree) : result (option string) :=
  q <~ selector "categories" ;;
  category_elements <~ xpath tr q ;;
  if truthy category_elements
  then category <~ joined_text category_elements ;; Ok (Some category)
  else Ok None.

(** [[f"https://www.yellowpages.com{link}" for link in raw_links
      if isinstance(link, str)]] *)
Definition listing_links (tr : tree) : result (list string) :=
  q <~ selector "business_urls" ;;
  raw_links <~ xpath tr q ;;
  links <~ py_iter raw_links ;;
  Ok (omap (fun link =>
              match link with
              | XString s => Some (origin +:+ s)
              | XElement _ => None
              end) links).

(** [page_content = ' '.join(..).strip()] over [SELECTORS['page_content']] *)
Definition listing_page_content (tr : tree) : result string :=
  q <~ selector "page_content" ;;
  page_content_elements <~ xpath tr q ;;
  joined_text page_content_elements.

(** [get_business_urls_from_page(session, search_page_url, semaphore)].
    [business_links] and [category] start as [[]] and [None]; an exception
    inside the [try] is caught by one of the [except] clauses, none of
    which returns, so the function falls through to
    [return business_links, category] with what was assigned so far. *)
Definition get_business_urls_from_page (search_page_url : string)
  : M (list string * option string) :=
  tree <- fetch_and_parse search_page_url ;;
  match tree with
  | None => ret ([], None)
  | Some tr =>
      match listing_category tr with
      | Raise _ => ret ([], None)
      | Ok category =>
          match listing_links tr with
          | Raise _ => ret ([], category)
          | Ok business_links =>
              match listing_page_content tr with
              | Raise _ => ret (business_links, category)
              | Ok page_content =>
                  if re_search_prefix_ignorecase "No results found for" page_content
                  then ret ([], category)
                  else _ <- sleep 0.5 1.5 ;; ret (business_links, category)
              end
          end
      end
  end.

(** The helpers local to [scrape_business_details]. *)
Definition safe_xpath_get_text (tr : tree) (xpath_selector default : string)
  : result string :=
  elements <~ xpath tr xpath_selector ;;
  if truthy elements then joined_text elements else Ok default.

Definition safe_xpath_get_attrib (tr : tree) (xpath_selector attr default : string)
  : result string :=
  elements <~ xpath tr xpath_selector ;;
  if truthy elements
  then first <~ first_item elements ;;
       value <~ item_get first attr default ;;
       Ok (strip value)
  else Ok default.

(** The dictionary literal [details = {...}]; its entries are evaluated in
    order and the first exception ends the evaluation. *)
Definition build_details (tr : tree) (business_url : string) : result details :=
  q1 <~ selector "business_name" ;;
  business <~ safe_xpath_get_text tr q1 EmptyString ;;
  q2 <~ selector "contact" ;;
  contact <~ safe_xpath_get_text tr q2 EmptyString ;;
  q3 <~ selector "email" ;;
  email <~ safe_xpath_get_text tr q3 EmptyString ;;
  q4 <~ selector "address" ;;
  address <~ safe_xpath_get_text tr q4 EmptyString ;;
  q5 <~ selector "map_and_direction" ;;
  map_and_direction <~ safe_xpath_get_attrib tr q5 "href" EmptyString ;;
  q6 <~ selector "review" ;;
  review <~ safe_xpath_get_attrib tr q6 "class" EmptyString ;;
  q7 <~ selector "review_count" ;;
  review_count <~ safe_xpath_get_text tr q7 EmptyString ;;
  q8 <~ selector "images" ;;
  images <~ safe_xpath_get_attrib tr q8 "src" EmptyString ;;
  q9 <~ selector "website" ;;
  website <~ safe_xpath_get_attrib tr q9 "href" EmptyString ;;
  Ok {| Business := business;
        Contact := contact;
        Email := replace "mailto:" EmptyString email;
        Address := address;
        Map_and_direction := origin +:+ map_and_direction;
        Review := replace "rating-stars " EmptyString review;
        Review_count := re_sub_class ["("; ")"]%char review_count;
        Hyperlink := business_url;
        Images := images;
        Website := website |}.

(** [scrape_business_details(session, business_url, semaphore)] *)
Definition scrape_business_details (business_url : string) : M (option details) :=
  tree <- fetch_and_parse business_url ;;
  match tree with
  | None => ret None
  | Some tr =>
      match build_details tr business_url with
      | Raise _ => ret None           (* the except clauses: return None *)
      | Ok d =>
          _ <- sleep 0.3 1.0 ;;
          ret (if nonempty (Business d) then Some d else None)
      end
  end.

(** [yp_lists(start_url)]: defined in GSscraper.py, imported from
    [tools.functionalities] by GScraper.py. *)
Definition yp_lists (start_url : string) : result (list string) :=
  match v with
  | GSscraper => Ok (GS_yp_lists start_url)
  | GScraper => tools_yp_lists W start_url
  end.

(** One turn of the loop [for business_urls, category in results_urls]:
    [all_business_urls.update(business_urls)] when the list is not empty,
    [categories_found.append(category)] when the category is a non-empty
    string (GSscraper.py: and is not in the list yet). *)
Definition merge_step (acc : gset string * list string)
    (r : list string * option string) : gset string * list string :=
  let '(all_business_urls, categories_found) := acc in
  let '(business_urls, category) := r in
  (match business_urls with
   | [] => all_business_urls
   | _ :: _ => all_business_urls ∪ list_to_set business_urls
   end,
   match category with
   | Some c =>
       if nonempty c
          && match v with
             | GScraper => true
             | GSscraper => negb (bool_decide (c ∈ categories_found))
             end
       then categories_found ++ [c]
       else categories_found
   | None => categories_found
   end).

(** [all_business_urls] and [categories_found] after the loop. *)
Definition merge_results (results_urls : list (list string * option string))
  : gset string * list string :=
  fold_left merge_step results_urls (∅, []).

(** [categories_found[0] if categories_found else "Unknown_Category"] *)
Definition category_name (categories_found : list string) : string :=
  match categories_found with
  | c :: _ => c
  | [] => "Unknown_Category"
  end.

(** [re.sub(.., "", category_name).strip()], then the default. *)
Definition sanitized_category (name : string) : string :=
  let s := strip (re_sub_class unsafe_chars name) in
  if nonempty s then s else "General_Scrape".

(** [OUTPUT_DIR / f"{sanitized_category}.xlsx"] *)
Definition output_file (sanitized : string) : string :=
  OUTPUT_DIR +:+ "/" +:+ sanitized +:+ ".xlsx".

(** Phase 1: one task per search page, gathered. *)
Definition discovery (search_page_urls : list string)
  : M (list (list string * option string)) :=
  gather get_business_urls_from_page search_page_urls.

(** Phase 2: one task per element of the set, gathered. *)
Definition enrichment (all_business_urls : gset string)
  : M (list (option details)) :=
  gather scrape_business_details (elements all_business_urls).

(** [[details for details in results_details if details is not None]] *)
Definition final_data (results_details : list (option details)) : list details :=
  omap id results_details.

(** Step 4, inside its own [try]. *)
Definition save_results (sanitized : string) (rows : list details) : M unit :=
  try_except
    (_ <- call (EvCreatePath OUTPUT_DIR) (fun t => create_path W t OUTPUT_DIR) ;;
     call (EvToExcel (output_file sanitized) rows)
          (fun t => to_excel W t (output_file sanitized) rows))
    (fun _ => ret tt).

(** [run_scraper(start_url)] *)
Definition run_scraper (start_url : string) : M unit :=
  match yp_lists start_url with
  | Raise _ => ret tt
  | Ok [] => ret tt
  | Ok search_page_urls =>
      results_urls <- discovery search_page_urls ;;
      let '(all_business_urls, categories_found) := merge_results results_urls in
      match elements all_business_urls with
      | [] => ret tt
      | _ :: _ =>
          let sanitized := sanitized_category (category_name categories_found) in
          results_details <- enrichment all_business_urls ;;
          match final_data results_details with
          | [] => ret tt
          | rows => save_results sanitized rows
          end
      end
  end.

End Crawler.

(** ** Observations on traces and specification-level definitions *)

(** The events that [fetch_and_parse] appends before its [try] block. *)
Definition pre_request (v : variant) : list event :=
  match v with
  | GSscraper => [EvSleep 2.0 5.0]
  | GScraper => []
  end.

(** The URLs of the HTTP requests of a trace, in order. *)
Definition requests (t : trace) : list string :=
  omap (fun ev => match ev with EvGet url _ => Some url | _ => None end) t.

(** The contents handed to the HTML parser along a trace. *)
Definition parsed (t : trace) : list string :=
  omap (fun ev => match ev with EvParse c => Some c | _ => None end) t.

(** The spreadsheets written along a trace. *)
Definition exports (t : trace) : list (string * list details) :=
  omap (fun ev => match ev with EvToExcel f rows => Some (f, rows) | _ => None end) t.

Definition is_Ok {A} (r : result A) : bool :=
  match r with Ok _ => true | Raise _ => false end.

(** The request of one fetch started at trace [t]: none when
    [userAgents()] raised inside the [try], else the URL. *)
Definition fetch_requests (W : World) (v : variant) (url : string) (t : trace)
  : list string :=
  if is_Ok (userAgents W (t ++ pre_request v)) then [url] else [].

(** The user-agent source answers at every call. *)
Definition userAgents_available (W : World) : Prop :=
  forall t, is_Ok (userAgents W t) = true.

(** The first non-empty category in the order of the listing pages, as the
    specification words it. *)
Fixpoint first_nonempty_category (results : list (list string * option string))
  : option string :=
  match results with
  | [] => None
  | (_, Some c) :: rest =>
      if nonempty c then Some c else first_nonempty_category rest
  | (_, None) :: rest => first_nonempty_category rest
  end.

(** The name of the export artifact, as the specification words it. *)
Definition artifact_name (results : list (list string * option string)) : string :=
  let chosen :=
    match first_nonempty_category results with
    | Some c => c
    | None => "Unknown_Category"
    end in
  let cleaned := strip (re_sub_class unsafe_chars chosen) in
  match cleaned with
  | EmptyString => "General_Scrape"
  | _ => cleaned
  end.

(** [s] in lower case, letter by letter. *)
Definition lowercase (s : string) : string :=
  string_of_list_ascii (map lower (list_ascii_of_string s)).

(** [s] begins with [p] when the case of letters is ignored. *)
Definition begins_ignoring_case (p s : string) : Prop :=
  exists front rest, s = front +:+ rest /\ lowercase front = lowercase p.

(** The string results among the items of an XPath result, in order. *)
Definition string_items (raw : list xitem) : list string :=
  omap (fun x => match x with XString s => Some s | XElement _ => None end) raw.

Definition is_sleep (ev : event) : bool :=
  match ev with EvSleep _ _ => true | _ => false end.

(** The selector keys that [get_business_urls_from_page] and
    [scrape_business_details] look up. *)
Definition listing_keys : list string :=
  ["categories"; "business_urls"; "page_content"].

Definition detail_keys : list string :=
  ["business_name"; "contact"; "email"; "address"; "map_and_direction";
   "review"; "review_count"; "images"; "website"].

(** ** A small site to run the crawler on *)

Module Sample.

Definition q_categories : string := "//div[@class='search-term']/h1".
Definition q_business_urls : string := "//a[@class='business-name']/@href".
Definition q_page_content : string := "//div[@id='main-content']".
Definition q_business_name : string := "//h1[@class='business-name']".
Definition q_contact : string := "//a[@class='phone']".
Definition q_email : string := "//a[@class='email-business']".
Definition q_address : string := "//span[@class='address']".
Definition q_map : string := "//a[@class='directions']".
Definition q_review : string := "//div[@class='ratings']/div".
Definition q_review_count : string := "//span[@class='count']".
Definition q_images : string := "//img[@class='logo']".
Definition q_website : string := "//a[@class='website-link']".

Definition selectors : gmap string string :=
  list_to_map
    [("categories", q_categories); ("business_urls", q_business_urls);
     ("page_content", q_page_content); ("business_name", q_business_name);
     ("contact", q_contact); ("email", q_email); ("address", q_address);
     ("map_and_direction", q_map); ("review", q_review);
     ("review_count", q_review_count); ("images", q_images);
     ("website", q_website)].

(** An element with text only, and one with a single attribute. *)
Definition el (txt : string) : xitem :=
  XElement {| text_content := txt; attrib := ∅ |}.

Definition el_attr (txt name value : string) : xitem :=
  XElement {| text_content := txt; attrib := {[name := value]} |}.

(** A document given by the queries that match something in it; any other
    query matches nothing. *)
Definition doc (table : list (string * list xitem)) : tree :=
  {| xpath q :=
       match (list_to_map table : gmap string (list xitem)) !! q with
       | Some items => Ok (XNodes items)
       | None => Ok (XNodes [])
       end |}.

Definition listing1 : tree :=
  doc [(q_categories, [el " Pizza "]);
       (q_business_urls,
        [XString "/mip/joes-pizza-1"; el "Joe's Pizza"; XString "/mip/marios-2"]);
       (q_page_content, [el "Showing 1-30 of 45"])].

Definition listing2 : tree :=
  doc [(q_categories, [el "Pizza Restaurants"]);
       (q_business_urls, [XString "/mip/marios-2"; XString "/mip/anonymous-3"]);
       (q_page_content, [el "Showing 31-45 of 45"])].

(** A no-results page on which the URL selector still matches a link. *)
Definition no_results : tree :=
  doc [(q_business_urls, [XString "/mip/featured-9"]);
       (q_page_content, [el "  no results FOUND for pizza in Nowhere, NY "])].

(** A listing page that links with an absolute URL. *)
Definition absolute_links : tree :=
  doc [(q_categories, [el "Pizza"]);
       (q_business_urls,
        [XString "https://www.yellowpages.com/mip/joes-pizza-1";
         el "Mario's"; XString "/mip/marios-2"]);
       (q_page_content, [el "Showing 1-2 of 2"])].

Definition detail_joes : tree :=
  doc [(q_business_name, [el "Joe's Pizza"]);
       (q_contact, [el "(212) 555-0100"]);
       (q_email, [el "mailto:joe@example.com"]);
       (q_address, [el "1 Main St"; el "New York, NY"]);
       (q_map, [el_attr "Directions" "href" "/mip/joes-pizza-1/directions"]);
       (q_review, [el_attr EmptyString "class" "rating-stars four half"]);
       (q_review_count, [el "(12)"]);
       (q_images, [el_attr EmptyString "src" "https://i.example.com/joes.png"]);
       (q_website, [el_attr "Visit Website" "href" "http://joes.example.com"])].

(** A detail page without a business name. *)
Definition detail_anonymous : tree :=
  doc [(q_contact, [el "(212) 555-0199"])].

Definition start_url : string :=
  "https://www.yellowpages.com/search?search_terms=pizza&geo_location_terms=New+York%2C+NY".

Definition ok_page (content : string) : response :=
  {| status := 200; text := Ok content |}.

Definition site : gmap string response :=
  list_to_map
    [(start_url +:+ "&page=1", ok_page "<html>listing 1</html>");
     (start_url +:+ "&page=2", ok_page "<html>listing 2</html>");
     ("https://www.yellowpages.com/search?search_terms=zzz",
      ok_page "<html>no results</html>");
     ("https://www.yellowpages.com/search?search_terms=abs",
      ok_page "<html>absolute</html>");
     ("https://www.yellowpages.com/mip/joes-pizza-1", ok_page "<html>joe</html>");
     ("https://www.yellowpages.com/mip/marios-2",
      {| status := 500; text := Ok "<html>error</html>" |});
     ("https://www.yellowpages.com/mip/anonymous-3", ok_page "<html>anonymous</html>");
     ("https://www.yellowpages.com/mip/choices-4",
      {| status := 300; text := Ok "<html>joe</html>" |})].

Definition parser : gmap string tree :=
  list_to_map
    [("<html>listing 1</html>", listing1);
     ("<html>listing 2</html>", listing2);
     ("<html>no results</html>", no_results);
     ("<html>absolute</html>", absolute_links);
     ("<html>joe</html>", detail_joes);
     ("<html>anonymous</html>", detail_anonymous)].

Definition user_agent : string := "Mozilla/5.0".

(** The site seen with a given selector table. *)
Definition world_with (sel : gmap string string) : World :=
  {| SELECTORS := sel;
     userAgents := fun _ => Ok user_agent;
     session_get := fun _ url _ =>
       match site !! url with
       | Some r => Ok r
       | None => Raise ClientError
       end;
     html_fromstring := fun content =>
       match parser !! content with
       | Some tr => Ok tr
       | None => Raise ParserError
       end;
     tools_yp_lists := fun url => Ok [url +:+ "&page=1"; url +:+ "&page=2"];
     create_path := fun _ _ => Ok tt;
     to_excel := fun _ _ _ => Ok tt |}.

Definition world : World := world_with selectors.

(** The site seen with one key missing from the selector table. *)
Definition world_without (key : string) : World :=
  world_with (delete key selectors).

(** The record of Joe's page. *)
Definition joes : details :=
  {| Business := "Joe's Pizza";
     Contact := "(212) 555-0100";
     Email := "joe@example.com";
     Address := "1 Main St New York, NY";
     Map_and_direction := "https://www.yellowpages.com/mip/joes-pizza-1/directions";
     Review := "four half";
     Review_count := "12";
     Hyperlink := "https://www.yellowpages.com/mip/joes-pizza-1";
     Images := "https://i.example.com/joes.png";
     Website := "http://joes.example.com" |}.

End Sample.

(** ** The utility functions of GSscraper.py and the log label *)

(** A literal of a regular expression matched at the start of [s] under
    [re.IGNORECASE]; what follows the match. *)
Fixpoint re_match_literal_ignorecase (p s : string) : option string :=
  match p, s with
  | EmptyString, _ => Some s
  | String a p', String b s' =>
      if Ascii.eqb (lower a) (lower b)
      then re_match_literal_ignorecase p' s' else None
  | String _ _, EmptyString => None
  end.

(** [.+] at the start of [s]: one character that is not a newline is
    enough, the rest of the repetition may be empty. *)
Definition re_dot_plus (s : string) : bool :=
  match s with
  | EmptyString => false
  | String c _ => negb (Ascii.eqb c "010"%char)
  end.

(** The pattern of [verify_yellow] with one alternative of its group
    chosen: the alternative, then [yellowpages\.com/], then [.+]. *)
Definition yp_pattern_with (alternative yp_url : string) : bool :=
  match re_match_literal_ignorecase alternative yp_url with
  | Some rest =>
      match re_match_literal_ignorecase "yellowpages.com/" rest with
      | Some tail => re_dot_plus tail
      | None => false
      end
  | None => false
  end.

(** [re.search(r"^(https://|www\.|)yellowpages\.com/.+", yp_url,
    re.IGNORECASE)] finds a match: some alternative of the group leads to
    one. *)
Definition yp_pattern (yp_url : string) : bool :=
  existsb (fun alternative => yp_pattern_with alternative yp_url)
    ["https://"; "www."; EmptyString].

(** [verify_yellow(yp_url)]: [True] when the URL is not of the expected
    form ([yp_pattern is None]). *)
Definition verify_yellow (yp_url : string) : bool := negb (yp_pattern yp_url).

(** The line boundaries of [str.splitlines] among the code points below
    256; a carriage return followed by a line feed is one boundary. *)
Definition is_linebreak (c : ascii) : bool :=
  let n := Ascii.N_of_ascii c in
  ((10 <=? n) && (n <=? 13) || (28 <=? n) && (n <=? 30) || (n =? 133))%N.

(** [s.splitlines()] *)
Fixpoint splitlines (s : string) : list string :=
  match s with
  | EmptyString => []
  | String c s' =>
      if is_linebreak c
      then EmptyString ::
           match s' with
           | String d s'' =>
               if Ascii.eqb c "013"%char && Ascii.eqb d "010"%char
               then splitlines s'' else splitlines s'
           | EmptyString => []
           end
      else match splitlines s' with
           | [] => [String c EmptyString]
           | line :: lines => String c line :: lines
           end
  end.

(** [random.choice(seq)] with the draw of the generator given: the item
    at a position below the length, [IndexError] on an empty list. *)
Definition random_choice (draw : nat) (seq : list string) : result string :=
  match seq with
  | [] => Raise IndexError
  | x :: _ => Ok (nth (draw mod length seq) seq x)
  end.

Definition DEFAULT_USER_AGENT : string :=
  "Mozilla/5.0 (Windows NT 10.0; Win64; x64) AppleWebKit/537.36 (KHTML, like Gecko) Chrome/91.0.4472.124 Safari/537.36".

(** GSscraper.py, [userAgents()].  [read] is what opening and reading
    [user-agents.txt] gives ([Raise OSError] stands for
    [FileNotFoundError]), [draw] the draw of [random.choice]. *)
Definition GS_userAgents (read : result string) (draw : nat) : result string :=
  match
    (content <~ read ;;
     random_choice draw (List.filter nonempty (splitlines content)))
  with
  | Ok agent => Ok agent
  | Raise OSError => Ok DEFAULT_USER_AGENT     (* except FileNotFoundError *)
  | Raise _ => Ok DEFAULT_USER_AGENT           (* except Exception *)
  end.

(** [s.split(sep)] for a separator of one character. *)
Fixpoint split (sep : ascii) (s : string) : list string :=
  match s with
  | EmptyString => [EmptyString]
  | String c s' =>
      if Ascii.eqb c sep then EmptyString :: split sep s'
      else match split sep s' with
           | [] => [String c EmptyString]
           | piece :: pieces => String c piece :: pieces
           end
  end.

(** [l[-1]] and [l[0]] *)
Definition py_last {A} (l : list A) : result A :=
  match last l with
  | Some x => Ok x
  | None => Raise IndexError
  end.

Definition py_first {A} (l : list A) : result A :=
  match l with
  | x :: _ => Ok x
  | [] => Raise IndexError
  end.

(** The label that [scrape_business_details] logs:
    [' '.join(business_url.split("/")[-1].split("?")[0].split("-")[:-1])] *)
Definition bizz_name_print (business_url : string) : result string :=
  segment <~ py_last (split "/" business_url) ;;
  name <~ py_first (split "?" segment) ;;
  Ok (join " " (removelast (split "-" name))).

(** First and last character of a string. *)
Definition first_char (s : string) : option ascii :=
  match s with
  | EmptyString => None
  | String c _ => Some c
  end.

Fixpoint last_char (s : string) : option ascii :=
  match s with
  | EmptyString => None
  | String c EmptyString => Some c
  | String _ s' => last_char s'
  end.

(** No whitespace at either end. *)
Definition stripped (s : string) : Prop :=
  (forall c, first_char s = Some c -> isspace c = false)
  /\ (forall c, last_char s = Some c -> isspace c = false).

(** The keys read with [safe_xpath_get_text] and with
    [safe_xpath_get_attrib]. *)
Definition text_keys : list string :=
  ["business_name"; "contact"; "email"; "address"; "review_count"].

Definition attrib_keys : list string :=
  ["map_and_direction"; "review"; "images"; "website"].

(** ** More of the sample site *)

Module SampleMore.

(** The sample site on a disk that refuses the output directory. *)
Definition world_readonly : World :=
  {| SELECTORS := Sample.selectors;
     userAgents := userAgents Sample.world;
     session_get := session_get Sample.world;
     html_fromstring := html_fromstring Sample.world;
     tools_yp_lists := tools_yp_lists Sample.world;
     create_path := fun _ _ => Raise OSError;
     to_excel := fun _ _ _ => Ok tt |}.

(** The sample site whose listing selector for URLs ends in [/@href] and
    whose website selector does too. *)
Definition q_website_href : string := "//a[@class='website-link']/@href".

Definition selectors_href : gmap string string :=
  <["website" := q_website_href]> Sample.selectors.

Definition detail_href : tree :=
  Sample.doc [(Sample.q_business_name, [Sample.el "Joe's Pizza"]);
              (q_website_href, [XString "http://joes.example.com"])].

(** A listing page without results that still shows a category. *)
Definition no_results_with_category : tree :=
  Sample.doc [(Sample.q_categories, [Sample.el "Pizza"]);
              (Sample.q_business_urls, [XString "/mip/featured-9"]);
              (Sample.q_page_content, [Sample.el "No results found for pizza"])].


(** A second small site, crawled with [selectors_href]. *)
Definition world : World :=
  {| SELECTORS := selectors_href;
     userAgents := fun _ => Ok Sample.user_agent;
     session_get := fun _ url _ =>
       if String.eqb url "https://www.yellowpages.com/search?search_terms=closed"
       then Ok (Sample.ok_page "<html>closed</html>")
       else if String.eqb url "https://www.yellowpages.com/mip/joes-pizza-1"
       then Ok (Sample.ok_page "<html>joe</html>")
       else Raise ClientError;
     html_fromstring := fun content =>
       if String.eqb content "<html>closed</html>"
       then Ok no_results_with_category
       else if String.eqb content "<html>joe</html>"
       then Ok detail_href
       else Raise ParserError;
     tools_yp_lists := fun url => Ok [url];
     create_path := fun _ _ => Ok tt;
     to_excel := fun _ _ _ => Ok tt |}.


End SampleMore.

(** ** The identity field and the selectors of a record *)

(** The attribute that [scrape_business_details] reads for each key of
    [safe_xpath_get_attrib]. *)
Definition attrib_of_key : list (string * string) :=
  [("map_and_direction", "href"); ("review", "class"); ("images", "src");
   ("website", "href")].

(** The identity field of a page: what
    [safe_xpath_get_text(SELECTORS['business_name'])] gives on it. *)
Definition business_name_text (W : World) (tr : tree) : result string :=
  q <~ selector W "business_name" ;;
  safe_xpath_get_text tr q EmptyString.

(** Every selector of the record is in the table and evaluates on the
    page without raising. *)
Definition selectors_evaluate (W : World) (tr : tree) : Prop :=
  Forall (fun key => exists q,
              SELECTORS W !! key = Some q
              /\ is_Ok (safe_xpath_get_text tr q EmptyString) = true) text_keys
  /\ Forall (fun ka => exists q,
                 SELECTORS W !! ka.1 = Some q
                 /\ is_Ok (safe_xpath_get_attrib tr q ka.2 EmptyString) = true)
       attrib_of_key.

(** A site with one listing page that links to one detail page; the
    detail page has a name, and the website selector ends in [/@href]. *)
Module SampleNamed.

Definition search_url : string :=
  "https://www.yellowpages.com/search?search_terms=pizza".

Definition listing : tree :=
  Sample.doc [(Sample.q_categories, [Sample.el "Pizza"]);
              (Sample.q_business_urls, [XString "/mip/joes-pizza-1"]);
              (Sample.q_page_content, [Sample.el "Showing 1-1 of 1"])].

Definition world : World :=
  {| SELECTORS := SampleMore.selectors_href;
     userAgents := fun _ => Ok Sample.user_agent;
     session_get := fun _ url _ =>
       if String.eqb url search_url
       then Ok (Sample.ok_page "<html>listing</html>")
       else if String.eqb url "https://www.yellowpages.com/mip/joes-pizza-1"
       then Ok (Sample.ok_page "<html>joe</html>")
       else Raise ClientError;
     html_fromstring := fun content =>
       if String.eqb content "<html>listing</html>" then Ok listing
       else if String.eqb content "<html>joe</html>"
       then Ok SampleMore.detail_href
       else Raise ParserError;
     tools_yp_lists := fun url => Ok [url];
     create_path := fun _ _ => Ok tt;
     to_excel := fun _ _ _ => Ok tt |}.

End SampleNamed.

(** * Proofs *)

(** ** What one fetch does *)

Lemma requests_app t1 t2 : requests (t1 ++ t2) = requests t1 ++ requests t2.
Proof. apply omap_app. Qed.

Lemma parsed_app t1 t2 : parsed (t1 ++ t2) = parsed t1 ++ parsed t2.
Proof. apply omap_app. Qed.

Lemma exports_app t1 t2 : exports (t1 ++ t2) = exports t1 ++ exports t2.
Proof. apply omap_app. Qed.

Section FetchFacts.

Variable W : World.
Variable v : variant.

(** [fetch_and_parse] written out as a decision tree over the answers of
    the world. *)
Lemma fetch_and_parse_unfold url t :
  fetch_and_parse W v url t =
  let t0 := t ++ pre_request v in
  match userAgents W t0 with
  | Raise _ => (Ok None, t0)
  | Ok ua =>
      let t1 := t0 ++ [EvGet url ua] in
      match session_get W t0 url ua with
      | Raise _ => (Ok None, t1)
      | Ok r =>
          if (400 <=? status r)%Z then (Ok None, t1)
          else match text r with
               | Raise _ => (Ok None, t1)
               | Ok content =>
                   if nonempty content
                   then match html_fromstring W content with
                        | Ok tr => (Ok (Some tr), t1 ++ [EvParse content])
                        | Raise _ => (Ok None, t1 ++ [EvParse content])
                        end
                   else (Ok None, t1)
               end
      end
  end.
Proof.
  unfold fetch_and_parse, sleep, bind, try_except, call, lift, ret, raise_for_status.
  cbv zeta.
  destruct v; simpl pre_request; rewrite ?app_nil_r.
  all: destruct (userAgents W _) as [ua|e]; [|by destruct e].
  all: destruct (session_get W _ url ua) as [r|e]; [|by destruct e].
  all: destruct (400 <=? status r)%Z; [done|].
  all: destruct (text r) as [content|e]; [|by destruct e].
  all: destruct (nonempty content); [|done].
  all: destruct (html_fromstring W content) as [tr|e]; [done|by destruct e].
Qed.

End FetchFacts.

(** ** Tasks never raise, and what they add to the trace *)

Section TaskFacts.

Variable W : World.
Variable v : variant.

Lemma fetch_and_parse_events url t :
  exists o evs,
    fetch_and_parse W v url t = (Ok o, t ++ evs)
    /\ requests evs = fetch_requests W v url t
    /\ exports evs = [].
Proof.
  rewrite fetch_and_parse_unfold. cbv zeta. unfold fetch_requests.
  assert (Hp : requests (pre_request v) = [] /\ exports (pre_request v) = [])
    by (by destruct v).
  destruct Hp as [Hp1 Hp2].
  destruct (userAgents W _) as [ua|e]; simpl.
  2: { exists None, (pre_request v). done. }
  destruct (session_get W _ url ua) as [r|e].
  2: { exists None, (pre_request v ++ [EvGet url ua]).
       rewrite app_assoc, requests_app, exports_app, Hp1, Hp2. done. }
  destruct (400 <=? status r)%Z.
  { exists None, (pre_request v ++ [EvGet url ua]).
    rewrite app_assoc, requests_app, exports_app, Hp1, Hp2. done. }
  destruct (text r) as [content|e].
  2: { exists None, (pre_request v ++ [EvGet url ua]).
       rewrite app_assoc, requests_app, exports_app, Hp1, Hp2. done. }
  destruct (nonempty content).
  2: { exists None, (pre_request v ++ [EvGet url ua]).
       rewrite app_assoc, requests_app, exports_app, Hp1, Hp2. done. }
  destruct (html_fromstring W content) as [tr|e];
    [exists (Some tr) | exists None];
    exists (pre_request v ++ [EvGet url ua; EvParse content]);
    rewrite requests_app, exports_app, Hp1, Hp2;
    (split; [by rewrite <- !app_assoc | done]).
Qed.

Lemma sleep_run a b t : sleep a b t = (Ok tt, t ++ [EvSleep a b]).
Proof. reflexivity. Qed.

(** [get_business_urls_from_page] always returns a pair. *)
Lemma get_business_urls_from_page_events url t :
  exists r evs,
    get_business_urls_from_page W v url t = (Ok r, t ++ evs)
    /\ requests evs = fetch_requests W v url t
    /\ exports evs = [].
Proof.
  unfold get_business_urls_from_page, bind.
  destruct (fetch_and_parse_events url t) as (o & evs & -> & Hr & He).
  destruct o as [tr|]; [|by exists ([], None), evs].
  destruct (listing_category W tr) as [category|]; [|by exists ([], None), evs].
  destruct (listing_links W tr) as [links|]; [|by exists ([], category), evs].
  destruct (listing_page_content W tr) as [content|];
    [|by exists (links, category), evs].
  destruct (re_search_prefix_ignorecase _ _); [by exists ([], category), evs|].
  rewrite sleep_run. unfold ret.
  exists (links, category), (evs ++ [EvSleep 0.5 1.5]).
  rewrite requests_app, exports_app, Hr, He, app_assoc. by rewrite !app_nil_r.
Qed.

(** [scrape_business_details] always returns; a record it returns has a
    non-empty ["Business"]. *)
Lemma scrape_business_details_events url t :
  exists r evs,
    scrape_business_details W v url t = (Ok r, t ++ evs)
    /\ requests evs = fetch_requests W v url t
    /\ exports evs = []
    /\ forall d, r = Some d -> nonempty (Business d) = true.
Proof.
  unfold scrape_business_details, bind.
  destruct (fetch_and_parse_events url t) as (o & evs & -> & Hr & He).
  destruct o as [tr|]; [|by exists None, evs].
  destruct (build_details W tr url) as [d|]; [|by exists None, evs].
  rewrite sleep_run. unfold ret.
  exists (if nonempty (Business d) then Some d else None), (evs ++ [EvSleep 0.3 1.0]).
  rewrite requests_app, exports_app, Hr, He, app_assoc.
  repeat split; try by rewrite ?app_nil_r.
  intros d'. destruct (nonempty (Business d)) eqn:Hb; [|done].
  by intros [= <-].
Qed.

End TaskFacts.

(** ** [gather] over tasks that never raise *)

Lemma gather_inv {A B} (f : A -> M B) (P : A -> trace -> B -> list event -> Prop) :
  (forall x t, exists y evs, f x t = (Ok y, t ++ evs) /\ P x t y evs) ->
  forall l t, exists ys evs,
    gather f l t = (Ok ys, t ++ evs)
    /\ length ys = length l
    /\ (forall y, y ∈ ys -> exists x t' evs', x ∈ l /\ P x t' y evs').
Proof.
  intros Hf l. induction l as [|x l IH]; intros t.
  - exists [], []. simpl. unfold ret. rewrite app_nil_r.
    repeat split. intros y Hy. by apply elem_of_nil in Hy.
  - simpl. unfold bind.
    destruct (Hf x t) as (y & evs & -> & HP).
    destruct (IH (t ++ evs)) as (ys & evs' & -> & Hlen & Hys).
    exists (y :: ys), (evs ++ evs'). unfold ret. rewrite app_assoc.
    repeat split; [simpl; by rewrite Hlen|].
    intros y' [->|Hy']%elem_of_cons.
    + exists x, t, evs. split; [left|done].
    + destruct (Hys y' Hy') as (x' & t' & e' & Hx' & HP').
      exists x', t', e'. split; [by right|done].
Qed.

Section GatherFacts.

Variable W : World.
Variable v : variant.

Lemma gather_requests {B} (f : string -> M B) :
  (forall x t, exists y evs,
      f x t = (Ok y, t ++ evs)
      /\ requests evs = fetch_requests W v x t /\ exports evs = []) ->
  forall l t, exists ys evs,
    gather f l t = (Ok ys, t ++ evs)
    /\ sublist (requests evs) l
    /\ (userAgents_available W -> requests evs = l)
    /\ exports evs = [].
Proof.
  intros Hf l. induction l as [|x l IH]; intros t.
  - exists [], []. simpl. unfold ret. by rewrite app_nil_r.
  - simpl. unfold bind.
    destruct (Hf x t) as (y & evs & -> & Hr & He).
    destruct (IH (t ++ evs)) as (ys & evs' & -> & Hsub & Hall & He').
    exists (y :: ys), (evs ++ evs'). unfold ret.
    rewrite app_assoc, requests_app, exports_app, He, He', Hr.
    repeat split.
    + unfold fetch_requests. destruct (is_Ok _); simpl.
      * by apply sublist_skip.
      * by apply sublist_cons.
    + intros Hua. unfold fetch_requests. rewrite Hua. simpl. by rewrite Hall.
Qed.

(** Phase 1 returns one pair per search page and writes no spreadsheet. *)
Lemma discovery_events pages t :
  exists results evs,
    discovery W v pages t = (Ok results, t ++ evs)
    /\ length results = length pages
    /\ sublist (requests evs) pages
    /\ exports evs = [].
Proof.
  unfold discovery.
  destruct (gather_requests (get_business_urls_from_page W v)
              (get_business_urls_from_page_events W v) pages t)
    as (ys & evs & Hg & Hsub & _ & He).
  destruct (gather_inv (get_business_urls_from_page W v) (fun _ _ _ _ => True))
    with (l := pages) (t := t) as (ys' & evs' & Hg' & Hlen & _).
  { intros x t'.
    destruct (get_business_urls_from_page_events W v x t') as (r & e & -> & _).
    by exists r, e. }
  rewrite Hg in Hg'. injection Hg' as <- _.
  by exists ys, evs.
Qed.

(** Phase 2 requests each element of the set at most once, in the order
    of the task list, and returns only records with a name. *)
Lemma enrichment_events (urls : gset string) t :
  exists results evs,
    enrichment W v urls t = (Ok results, t ++ evs)
    /\ sublist (requests evs) (elements urls)
    /\ (userAgents_available W -> requests evs = elements urls)
    /\ exports evs = []
    /\ Forall (fun d => nonempty (Business d) = true) (final_data results)
    /\ length results = length (elements urls).
Proof.
  unfold enrichment.
  destruct (gather_requests (scrape_business_details W v)) with
    (l := elements urls) (t := t) as (ys & evs & Hg & Hsub & Hall & He).
  { intros x t'.
    destruct (scrape_business_details_events W v x t') as (r & e & -> & ? & ? & _).
    by exists r, e. }
  destruct (gather_inv (scrape_business_details W v)
              (fun _ _ r _ => forall d, r = Some d -> nonempty (Business d) = true))
    with (l := elements urls) (t := t) as (ys' & evs' & Hg' & Hlen & Hys).
  { intros x t'.
    destruct (scrape_business_details_events W v x t') as (r & e & -> & _ & _ & Hd).
    by exists r, e. }
  rewrite Hg in Hg'. injection Hg' as <- _.
  exists ys, evs. repeat split; try done.
  apply Forall_forall. intros d Hd. unfold final_data in Hd.
  apply list_elem_of_omap in Hd as (o & Ho & Hod). simpl in Hod. subst o.
  destruct (Hys _ Ho) as (_ & _ & _ & _ & HP). by apply HP.
Qed.

(** Step 4 never raises and writes at most the one spreadsheet. *)
Lemma save_results_events sanitized rows t :
  exists evs,
    save_results W sanitized rows t = (Ok tt, t ++ evs)
    /\ sublist (exports evs) [(output_file sanitized, rows)]
    /\ requests evs = [].
Proof.
  unfold save_results, try_except, bind, call, ret.
  destruct (create_path W t OUTPUT_DIR) as [[]|e].
  - destruct (to_excel W _ _ _) as [[]|e];
      exists [EvCreatePath OUTPUT_DIR; EvToExcel (output_file sanitized) rows];
      by rewrite <- app_assoc.
  - exists [EvCreatePath OUTPUT_DIR]. repeat split. simpl. apply sublist_nil_l.
Qed.

End GatherFacts.

(** ** The whole run *)

Section RunFacts.

Variable W : World.
Variable v : variant.

(** [run_scraper] never raises.  When it writes a spreadsheet it writes
    one, named after the category of phase 1 and filled with the records
    of phase 2. *)
Lemma run_scraper_events start_url t :
  exists evs,
    run_scraper W v start_url t = (Ok tt, t ++ evs)
    /\ (exports evs = []
        \/ exists pages results evs1 results_details evs2,
            yp_lists W v start_url = Ok pages
            /\ discovery W v pages t = (Ok results, t ++ evs1)
            /\ enrichment W v (merge_results v results).1 (t ++ evs1)
               = (Ok results_details, (t ++ evs1) ++ evs2)
            /\ exports evs
               = [(output_file
                     (sanitized_category (category_name (merge_results v results).2)),
                   final_data results_details)]).
Proof.
  unfold run_scraper.
  destruct (yp_lists W v start_url) as [pages|e] eqn:Hyp.
  2: { exists []. unfold ret. rewrite app_nil_r. by split; [|left]. }
  destruct pages as [|p pages].
  { exists []. unfold ret. rewrite app_nil_r. by split; [|left]. }
  unfold bind.
  destruct (discovery_events W v (p :: pages) t) as (results & evs1 & Hd & _ & _ & He1).
  rewrite Hd.
  destruct (merge_results v results) as [all_business_urls categories_found] eqn:Hm.
  destruct (elements all_business_urls) as [|u us] eqn:Hel.
  { exists evs1. unfold ret. by split; [|left]. }
  destruct (enrichment_events W v all_business_urls (t ++ evs1))
    as (results_details & evs2 & Hen & _ & _ & He2 & _ & _).
  rewrite Hen.
  destruct (final_data results_details) as [|d ds] eqn:Hfd.
  { exists (evs1 ++ evs2). unfold ret. rewrite app_assoc.
    split; [done|left]. by rewrite exports_app, He1, He2. }
  destruct (save_results_events W
              (sanitized_category (category_name categories_found)) (d :: ds)
              ((t ++ evs1) ++ evs2)) as (evs3 & Hs & Hsub & _).
  rewrite Hs. exists (evs1 ++ evs2 ++ evs3).
  split; [by rewrite !app_assoc|].
  rewrite !exports_app, He1, He2. simpl.
  destruct (exports evs3) as [|x l']; [by left|right].
  assert (l' = []) as ->.
  { apply sublist_length in Hsub. simpl in Hsub.
    destruct l'; [done|simpl in Hsub; lia]. }
  apply sublist_cons_r in Hsub as [Hnil|(l'' & Heq & _)].
  { by apply sublist_nil_r in Hnil. }
  injection Heq as -> _.
  exists (p :: pages), results, evs1, results_details, evs2.
  by rewrite Hfd, Hm.
Qed.

(** After phase 1, the requests of a run are requests of phase 2: a
    sub-sequence of the elements of the merged set. *)
Lemma run_scraper_requests start_url t pages results evs1 :
  yp_lists W v start_url = Ok pages ->
  discovery W v pages t = (Ok results, t ++ evs1) ->
  exists evs2,
    requests (run_scraper W v start_url t).2
    = requests (t ++ evs1) ++ requests evs2
    /\ sublist (requests evs2) (elements (merge_results v results).1)
    /\ (userAgents_available W ->
        requests evs2 = elements (merge_results v results).1).
Proof.
  intros Hyp Hd. unfold run_scraper. rewrite Hyp.
  destruct pages as [|p pages].
  { unfold discovery in Hd. simpl in Hd. unfold ret in Hd.
    injection Hd as <- Ht. exists []. simpl. rewrite <- Ht, !app_nil_r.
    unfold merge_results. simpl. rewrite elements_empty. by repeat split. }
  unfold bind. rewrite Hd.
  destruct (merge_results v results) as [all_business_urls categories_found].
  simpl fst.
  destruct (elements all_business_urls) as [|u us] eqn:Hel.
  { exists []. simpl. rewrite !app_nil_r. repeat split. apply sublist_nil_l. }
  rewrite <- Hel.
  destruct (enrichment_events W v all_business_urls (t ++ evs1))
    as (results_details & evs2 & Hen & Hsub & Hall & _).
  rewrite Hen.
  destruct (final_data results_details) as [|d ds].
  { exists evs2. simpl. by rewrite requests_app. }
  destruct (save_results_events W
              (sanitized_category (category_name categories_found)) (d :: ds)
              ((t ++ evs1) ++ evs2)) as (evs3 & Hs & _ & Hr3).
  rewrite Hs. simpl. exists (evs2 ++ evs3).
  rewrite <- !app_assoc, !requests_app, Hr3, !app_nil_r.
  by rewrite !app_assoc.
Qed.

End RunFacts.

(** ** The merge of phase 1 *)

Section MergeFacts.

Variable v : variant.

Lemma merge_step_urls acc r (u : string) :
  u ∈ (merge_step v acc r).1 <-> u ∈ acc.1 \/ u ∈ r.1.
Proof.
  destruct acc as [urls cats], r as [links category]. simpl.
  destruct links as [|l links].
  - split; [by left|]. intros [?|H]; [done|]. by apply elem_of_nil in H.
  - rewrite elem_of_union, elem_of_list_to_set. done.
Qed.

Lemma merge_fold_urls l acc (u : string) :
  u ∈ (fold_left (merge_step v) l acc).1
  <-> u ∈ acc.1 \/ exists r, r ∈ l /\ u ∈ r.1.
Proof.
  revert acc. induction l as [|r l IH]; intros acc; simpl.
  - split; [by left|]. intros [?|(r & Hr & _)]; [done|].
    by apply elem_of_nil in Hr.
  - rewrite IH, merge_step_urls. split.
    + intros [[?|?]|(r' & Hr' & ?)].
      * by left.
      * right. exists r. split; [left|done].
      * right. exists r'. split; [by right|done].
    + intros [?|(r' & [->|Hr']%elem_of_cons & ?)].
      * by left; left.
      * by left; right.
      * right. by exists r'.
Qed.

(** A URL is in the merged set exactly when some listing page returned it. *)
Lemma merge_results_urls results (u : string) :
  u ∈ (merge_results v results).1 <-> exists r, r ∈ results /\ u ∈ r.1.
Proof.
  unfold merge_results. rewrite merge_fold_urls. simpl. split.
  - intros [H|H]; [|done]. by apply not_elem_of_empty in H.
  - by right.
Qed.

Lemma merge_step_head acc r :
  head (merge_step v acc r).2 =
  match head acc.2 with
  | Some c => Some c
  | None => first_nonempty_category [r]
  end.
Proof.
  destruct acc as [urls cats], r as [links [c|]]; simpl.
  - destruct cats as [|c0 cats]; simpl.
    + destruct (nonempty c); [|done]. by destruct v.
    + by destruct (_ && _).
  - by destruct cats.
Qed.

Lemma merge_fold_head l acc :
  head (fold_left (merge_step v) l acc).2 =
  match head acc.2 with
  | Some c => Some c
  | None => first_nonempty_category l
  end.
Proof.
  revert acc. induction l as [|r l IH]; intros acc; simpl.
  - by destruct (head acc.2).
  - rewrite IH, merge_step_head. destruct (head acc.2); [done|].
    destruct r as [links [c|]]; simpl; [|done].
    by destruct (nonempty c).
Qed.

(** [categories_found[0]] is the first non-empty category of the pages. *)
Lemma merge_results_head results :
  head (merge_results v results).2 = first_nonempty_category results.
Proof. unfold merge_results. by rewrite merge_fold_head. Qed.

Lemma sanitized_category_artifact_name results :
  sanitized_category (category_name (merge_results v results).2)
  = artifact_name results.
Proof.
  unfold artifact_name. rewrite <- merge_results_head.
  unfold sanitized_category, category_name.
  destruct (merge_results v results).2 as [|c cats]; simpl head; cbv zeta;
    by destruct (strip _).
Qed.

End MergeFacts.

(** ** Characters of a sanitized name *)

Lemma lstrip_chars c s :
  c ∈ list_ascii_of_string (lstrip s) -> c ∈ list_ascii_of_string s.
Proof.
  induction s as [|a s IH]; simpl; [done|].
  destruct (isspace a); [|done]. intros H. right. by apply IH.
Qed.

Lemma rstrip_chars c s :
  c ∈ list_ascii_of_string (rstrip s) -> c ∈ list_ascii_of_string s.
Proof.
  induction s as [|a s IH]; simpl; [done|].
  destruct (rstrip s) as [|b r] eqn:Hr.
  - destruct (isspace a); simpl; [by intros ?%elem_of_nil|].
    intros [->|?%elem_of_nil]%elem_of_cons; [left|done].
  - simpl. intros [->|H]%elem_of_cons; [left|right]. by apply IH.
Qed.

Lemma strip_chars c s :
  c ∈ list_ascii_of_string (strip s) -> c ∈ list_ascii_of_string s.
Proof. intros H. by apply lstrip_chars, rstrip_chars. Qed.

Lemma re_sub_class_chars cls c s :
  c ∈ list_ascii_of_string (re_sub_class cls s) ->
  c ∈ list_ascii_of_string s /\ c ∉ cls.
Proof.
  induction s as [|a s IH]; simpl; [by intros ?%elem_of_nil|].
  destruct (existsb (Ascii.eqb a) cls) eqn:Hex.
  - intros H. destruct (IH H). split; [by right|done].
  - simpl. intros [->|H]%elem_of_cons.
    + split; [left|]. intros Hin.
      assert (existsb (Ascii.eqb a) cls = true); [|congruence].
      apply existsb_exists. exists a. split; [by apply list_elem_of_In|].
      apply Ascii.eqb_refl.
    + destruct (IH H). split; [by right|done].
Qed.

(** ** The no-results pattern and the text of matched elements *)

Lemma lowercase_cons c s : lowercase (String c s) = String (lower c) (lowercase s).
Proof. reflexivity. Qed.

(** The regular expression of the source accepts exactly the texts that
    begin with the phrase, whatever the case of the letters. *)
Lemma re_search_prefix_ignorecase_spec p s :
  re_search_prefix_ignorecase p s = true <-> begins_ignoring_case p s.
Proof.
  revert s. induction p as [|a p IH]; intros s; simpl.
  - split; [|done]. intros _. by exists EmptyString, s.
  - destruct s as [|b s].
    + split; [done|]. intros (front & rest & Hs & Hl).
      destruct front; [done|discriminate].
    + destruct (Ascii.eqb_spec (lower a) (lower b)) as [Hab|Hab].
      * rewrite IH. split.
        -- intros (front & rest & -> & Hl). exists (String b front), rest.
           split; [done|]. by rewrite !lowercase_cons, Hl, Hab.
        -- intros (front & rest & Hs & Hl). destruct front as [|c front].
           { discriminate. }
           injection Hs as -> ->. rewrite !lowercase_cons in Hl.
           injection Hl as _ Hl. by exists front, rest.
      * split; [done|]. intros (front & rest & Hs & Hl).
        destruct front as [|c front]; [discriminate|].
        injection Hs as -> ->. rewrite !lowercase_cons in Hl.
        injection Hl as Hc _. by destruct Hab.
Qed.

Lemma rmapM_text_content els :
  rmapM item_text_content (map XElement els) = Ok (map text_content els).
Proof. induction els as [|e els IH]; simpl; [done|]. by rewrite IH. Qed.

Lemma joined_text_elements els :
  joined_text (XNodes (map XElement els))
  = Ok (strip (join " " (map text_content els))).
Proof. unfold joined_text. simpl. by rewrite rmapM_text_content. Qed.

(** The name of a built record is the text found by the name selector. *)
Lemma build_details_Business W tr url d :
  build_details W tr url = Ok d ->
  exists q, selector W "business_name" = Ok q
            /\ safe_xpath_get_text tr q EmptyString = Ok (Business d).
Proof.
  unfold build_details, rbind. intros H.
  destruct (selector W "business_name") as [q|]; [|done].
  destruct (safe_xpath_get_text tr q EmptyString) as [b|] eqn:Hb; [|done].
  exists q. split; [done|]. rewrite Hb.
  repeat case_match; try discriminate. by injection H as <-.
Qed.

(** A record is built only when every key of the detail page is in the
    selector table. *)
Lemma build_details_keys W tr url d :
  build_details W tr url = Ok d ->
  Forall (fun key => is_Some (SELECTORS W !! key)) detail_keys.
Proof.
  unfold build_details, rbind, selector. intros H.
  repeat case_match; try discriminate.
  repeat constructor; eauto.
Qed.

(** A listing task returns a pair whatever the selectors do. *)
Lemma get_business_urls_from_page_returns W v url t :
  exists links category,
    (get_business_urls_from_page W v url t).1 = Ok (links, category).
Proof.
  destruct (get_business_urls_from_page_events W v url t)
    as ([links category] & evs & -> & _).
  by exists links, category.
Qed.

(** ** When a record is built, and what a run hands to the exporter *)

Lemma build_details_evaluates W tr url d :
  build_details W tr url = Ok d -> selectors_evaluate W tr.
Proof.
  unfold build_details, rbind, selector. intros H.
  repeat case_match; try discriminate. simplify_eq.
  split; repeat constructor; simpl;
    match goal with
    | H : safe_xpath_get_text _ ?q _ = Ok _ |- exists _, _ /\ _ =>
        exists q; split; [eassumption|by rewrite H]
    | H : safe_xpath_get_attrib _ ?q _ _ = Ok _ |- exists _, _ /\ _ =>
        exists q; split; [eassumption|by rewrite H]
    end.
Qed.

Lemma selectors_evaluate_build W tr url :
  selectors_evaluate W tr -> exists d, build_details W tr url = Ok d.
Proof.
  intros [Ht Ha]. rewrite Forall_forall in Ht. rewrite Forall_forall in Ha.
  destruct (Ht "business_name" ltac:(repeat constructor)) as (q1 & Hq1 & H1).
  destruct (Ht "contact" ltac:(repeat constructor)) as (q2 & Hq2 & H2).
  destruct (Ht "email" ltac:(repeat constructor)) as (q3 & Hq3 & H3).
  destruct (Ht "address" ltac:(repeat constructor)) as (q4 & Hq4 & H4).
  destruct (Ha ("map_and_direction", "href") ltac:(repeat constructor))
    as (q5 & Hq5 & H5).
  destruct (Ha ("review", "class") ltac:(repeat constructor)) as (q6 & Hq6 & H6).
  destruct (Ht "review_count" ltac:(repeat constructor)) as (q7 & Hq7 & H7).
  destruct (Ha ("images", "src") ltac:(repeat constructor)) as (q8 & Hq8 & H8).
  destruct (Ha ("website", "href") ltac:(repeat constructor)) as (q9 & Hq9 & H9).
  simpl in Hq5, Hq6, Hq8, Hq9, H5, H6, H8, H9.
  unfold build_details, rbind, selector.
  rewrite Hq1, Hq2, Hq3, Hq4, Hq5, Hq6, Hq7, Hq8, Hq9.
  destruct (safe_xpath_get_text tr q1 EmptyString); [|done].
  destruct (safe_xpath_get_text tr q2 EmptyString); [|done].
  destruct (safe_xpath_get_text tr q3 EmptyString); [|done].
  destruct (safe_xpath_get_text tr q4 EmptyString); [|done].
  destruct (safe_xpath_get_attrib tr q5 "href" EmptyString); [|done].
  destruct (safe_xpath_get_attrib tr q6 "class" EmptyString); [|done].
  destruct (safe_xpath_get_text tr q7 EmptyString); [|done].
  destruct (safe_xpath_get_attrib tr q8 "src" EmptyString); [|done].
  destruct (safe_xpath_get_attrib tr q9 "href" EmptyString); [|done].
  by eexists.
Qed.

(** The name of a built record is the identity field of the page. *)
Lemma build_details_name_text W tr url d :
  build_details W tr url = Ok d -> business_name_text W tr = Ok (Business d).
Proof.
  intros (q & Hq & Ht)%build_details_Business.
  unfold business_name_text, rbind. by rewrite Hq.
Qed.

(** The identity field spelt out on a page where the name selector
    matches elements. *)
Lemma business_name_text_elements W tr q els :
  SELECTORS W !! "business_name" = Some q ->
  xpath tr q = Ok (XNodes (map XElement els)) ->
  business_name_text W tr
  = Ok (match els with
        | [] => EmptyString
        | _ :: _ => strip (join " " (map text_content els))
        end).
Proof.
  intros Hsel Hx. unfold business_name_text, rbind, selector. rewrite Hsel.
  unfold safe_xpath_get_text, rbind. rewrite Hx.
  destruct els as [|e els]; [done|].
  change (truthy (XNodes (map XElement (e :: els)))) with true. cbv iota.
  apply joined_text_elements.
Qed.

(** What a task returns for a page that was fetched. *)
Lemma scrape_business_details_result W v url t tr :
  (fetch_and_parse W v url t).1 = Ok (Some tr) ->
  (scrape_business_details W v url t).1
  = Ok (match build_details W tr url with
        | Ok d => if nonempty (Business d) then Some d else None
        | Raise _ => None
        end).
Proof.
  intros Hfetch. unfold scrape_business_details, bind.
  destruct (fetch_and_parse W v url t) as [r t']. simpl in Hfetch. subst r.
  destruct (build_details W tr url) as [d|]; [|done].
  by rewrite sleep_run.
Qed.

(** The results of [gather] are, in task order, the results of the
    tasks. *)
Lemma gather_results_of_tasks {A B} (f : A -> M B) l t ys t' :
  gather f l t = (Ok ys, t') ->
  Forall2 (fun x y => exists ti, (f x ti).1 = Ok y) l ys.
Proof.
  revert t ys t'. induction l as [|x l IH]; intros t ys t'; simpl.
  - unfold ret. intros [= <- _]. constructor.
  - unfold bind. destruct (f x t) as [[y|e] t1] eqn:Hf; [|done].
    destruct (gather f l t1) as [[ys'|e] t2] eqn:Hg; [|done].
    unfold ret. intros [= <- _]. constructor; [|by eapply IH].
    exists t. by rewrite Hf.
Qed.

(** The two ways [save_results] can go. *)
Lemma save_results_cases W sanitized rows t :
  save_results W sanitized rows t
  = (Ok tt,
     t ++ EvCreatePath OUTPUT_DIR ::
       (if is_Ok (create_path W t OUTPUT_DIR)
        then [EvToExcel (output_file sanitized) rows] else [])).
Proof.
  unfold save_results, try_except, bind, call, ret.
  destruct (create_path W t OUTPUT_DIR) as [[]|e]; simpl; [|done].
  rewrite <- app_assoc. simpl. by destruct (to_excel W _ _ _) as [[]|].
Qed.

(** The spreadsheets of a run, from the results of its two phases: one
    call of [to_excel] with the records of phase 2 when there is a record
    and the output directory can be created, none otherwise. *)
Lemma run_scraper_exports W v start_url t pages results evs1 rd evs2 :
  yp_lists W v start_url = Ok pages ->
  discovery W v pages t = (Ok results, t ++ evs1) ->
  enrichment W v (merge_results v results).1 (t ++ evs1)
  = (Ok rd, (t ++ evs1) ++ evs2) ->
  exists evs,
    run_scraper W v start_url t = (Ok tt, t ++ evs)
    /\ exports evs
       = match final_data rd with
         | [] => []
         | rows =>
             if is_Ok (create_path W ((t ++ evs1) ++ evs2) OUTPUT_DIR)
             then [(output_file
                      (sanitized_category
                         (category_name (merge_results v results).2)),
                    rows)]
             else []
         end.
Proof.
  intros Hyp Hd Hen. unfold run_scraper. rewrite Hyp.
  destruct (discovery_events W v pages t) as (results' & evs1' & Hd' & _ & _ & He1).
  rewrite Hd in Hd'. injection Hd' as <- Heq. apply app_inv_head in Heq.
  subst evs1'.
  destruct (enrichment_events W v (merge_results v results).1 (t ++ evs1))
    as (rd' & evs2' & Hen' & _ & _ & He2 & _).
  rewrite Hen in Hen'. injection Hen' as <- Heq. apply app_inv_head in Heq.
  subst evs2'.
  destruct pages as [|p pages].
  { unfold discovery in Hd. simpl in Hd. unfold ret in Hd. injection Hd as <- _.
    unfold enrichment, merge_results in Hen. simpl in Hen.
    rewrite elements_empty in Hen. simpl in Hen. unfold ret in Hen.
    injection Hen as <- _. exists []. by rewrite app_nil_r. }
  unfold bind. rewrite Hd.
  destruct (merge_results v results) as [urls cats]. simpl in Hen. simpl.
  destruct (elements urls) as [|u us] eqn:Hel.
  { unfold enrichment in Hen. rewrite Hel in Hen. simpl in Hen. unfold ret in Hen.
    injection Hen as <- _. by exists evs1. }
  rewrite Hen.
  destruct (final_data rd) as [|d ds].
  { exists (evs1 ++ evs2). rewrite app_assoc. split; [done|].
    by rewrite exports_app, He1, He2. }
  rewrite save_results_cases.
  exists (evs1 ++ evs2 ++ EvCreatePath OUTPUT_DIR ::
            (if is_Ok (create_path W ((t ++ evs1) ++ evs2) OUTPUT_DIR)
             then [EvToExcel (output_file (sanitized_category (category_name cats)))
                     (d :: ds)]
             else [])).
  split; [by rewrite !app_assoc|].
  rewrite !exports_app, He1, He2. simpl. by destruct (is_Ok _).
Qed.

(** All listing pages are requested when the user-agent source answers. *)
Lemma discovery_requests W v pages t :
  userAgents_available W ->
  exists results evs1,
    discovery W v pages t = (Ok results, t ++ evs1)
    /\ length results = length pages
    /\ requests evs1 = pages.
Proof.
  intros Hua.
  destruct (discovery_events W v pages t) as (results & evs1 & Hd & Hlen & _).
  destruct (gather_requests W v (get_business_urls_from_page W v)
              (get_business_urls_from_page_events W v) pages t)
    as (ys & evs & Hg & _ & Hall & _).
  unfold discovery in Hd. rewrite Hd in Hg. injection Hg as <- Heq.
  apply app_inv_head in Heq. subst evs.
  exists results, evs1. split; [done|]. split; [done|]. by apply Hall.
Qed.

(** * The claims *)

(** ** C4: the outcomes of a fetch *)

(** C4, as the code has it.  A fetch returns a parsed document or [None]
    and never raises, and it issues at most one request (nothing is
    retried).  It returns [None] without handing anything to the parser
    when the status is 400 or more, when the request raises (network
    error, timeout), and when the body is empty; it returns [None] when
    the parser raises.  A status below 400 with a non-empty body that
    parses gives the document, whether or not the status is 2xx. *)
Theorem fetch_and_parse_outcomes (W : World) (v : variant) (url : string) (t : trace) :
  (exists o evs,
      fetch_and_parse W v url t = (Ok o, t ++ evs)
      /\ length (requests evs) <= 1)
  /\ (forall ua r,
        userAgents W (t ++ pre_request v) = Ok ua ->
        session_get W (t ++ pre_request v) url ua = Ok r ->
        (400 <= status r)%Z ->
        (fetch_and_parse W v url t).1 = Ok None
        /\ parsed (fetch_and_parse W v url t).2 = parsed t)
  /\ (forall ua e,
        userAgents W (t ++ pre_request v) = Ok ua ->
        session_get W (t ++ pre_request v) url ua = Raise e ->
        (fetch_and_parse W v url t).1 = Ok None
        /\ parsed (fetch_and_parse W v url t).2 = parsed t)
  /\ (forall ua r,
        userAgents W (t ++ pre_request v) = Ok ua ->
        session_get W (t ++ pre_request v) url ua = Ok r ->
        text r = Ok EmptyString ->
        (fetch_and_parse W v url t).1 = Ok None
        /\ parsed (fetch_and_parse W v url t).2 = parsed t)
  /\ (forall ua r content e,
        userAgents W (t ++ pre_request v) = Ok ua ->
        session_get W (t ++ pre_request v) url ua = Ok r ->
        text r = Ok content ->
        html_fromstring W content = Raise e ->
        (fetch_and_parse W v url t).1 = Ok None)
  /\ (forall ua r content tr,
        userAgents W (t ++ pre_request v) = Ok ua ->
        session_get W (t ++ pre_request v) url ua = Ok r ->
        (status r < 400)%Z ->
        text r = Ok content ->
        content <> EmptyString ->
        html_fromstring W content = Ok tr ->
        (fetch_and_parse W v url t).1 = Ok (Some tr)).
Proof.
  assert (Hpre : parsed (pre_request v) = []) by (by destruct v).
  split; [|split; [|split; [|split; [|split]]]].
  - destruct (fetch_and_parse_events W v url t) as (o & evs & Hf & Hr & _).
    exists o, evs. split; [done|]. rewrite Hr. unfold fetch_requests.
    destruct (is_Ok _); simpl; lia.
  - intros ua r Hua Hget Hst.
    rewrite fetch_and_parse_unfold. cbv zeta. rewrite Hua, Hget.
    destruct (Z.leb_spec 400 (status r)); [|lia]. simpl.
    by rewrite !parsed_app, Hpre, !app_nil_r.
  - intros ua e Hua Hget.
    rewrite fetch_and_parse_unfold. cbv zeta. rewrite Hua, Hget. simpl.
    by rewrite !parsed_app, Hpre, !app_nil_r.
  - intros ua r Hua Hget Htext.
    rewrite fetch_and_parse_unfold. cbv zeta. rewrite Hua, Hget, Htext. simpl.
    destruct (400 <=? status r)%Z; simpl;
      by rewrite !parsed_app, Hpre, !app_nil_r.
  - intros ua r content e Hua Hget Htext Hparse.
    rewrite fetch_and_parse_unfold. cbv zeta. rewrite Hua, Hget, Htext, Hparse.
    destruct (400 <=? status r)%Z; [done|]. by destruct (nonempty content).
  - intros ua r content tr Hua Hget Hst Htext Hne Hparse.
    rewrite fetch_and_parse_unfold. cbv zeta. rewrite Hua, Hget, Htext, Hparse.
    destruct (Z.leb_spec 400 (status r)); [lia|].
    by destruct content.
Qed.

(** C4 at the page of Mario's, which answers with status 500. *)
Lemma fetch_and_parse_outcomes_witness :
  (fetch_and_parse Sample.world GScraper
     "https://www.yellowpages.com/mip/marios-2" []).1 = Ok None.
Proof.
  apply (proj1 (proj1 (proj2 (fetch_and_parse_outcomes Sample.world GScraper
                   "https://www.yellowpages.com/mip/marios-2" []))
          Sample.user_agent
          {| status := 500; text := Ok "<html>error</html>" |}
          eq_refl eq_refl ltac:(simpl; lia))).
Defined.

(** C4 as stated fails: a response with status 300, which is not 2xx, has
    its body parsed and the document returned. *)
Lemma fetch_and_parse_parses_status_300 :
  session_get Sample.world [] "https://www.yellowpages.com/mip/choices-4"
    Sample.user_agent
  = Ok {| status := 300; text := Ok "<html>joe</html>" |}
  /\ fetch_and_parse Sample.world GScraper
       "https://www.yellowpages.com/mip/choices-4" []
     = (Ok (Some Sample.detail_joes),
        [EvGet "https://www.yellowpages.com/mip/choices-4" Sample.user_agent;
         EvParse "<html>joe</html>"]).
Proof. split; reflexivity. Qed.

(** ** C7: where the delay is *)

(** C7, as the code has it.  In GSscraper.py every fetch starts with a
    delay drawn from the range 2.0 to 5.0 and no other delay follows
    inside the fetch; the request, if any, comes after that delay.  In
    GScraper.py a fetch contains no delay at all. *)
Theorem fetch_and_parse_delay (W : World) (url : string) (t : trace) :
  (exists o evs,
      fetch_and_parse W GSscraper url t = (Ok o, t ++ EvSleep 2.0 5.0 :: evs)
      /\ Forall (fun ev => is_sleep ev = false) evs)
  /\ (exists o evs,
        fetch_and_parse W GScraper url t = (Ok o, t ++ evs)
        /\ Forall (fun ev => is_sleep ev = false) evs).
Proof.
  split; rewrite fetch_and_parse_unfold; cbv zeta; simpl pre_request;
    rewrite ?app_nil_r.
  - destruct (userAgents W _) as [ua|]; [|by exists None, []].
    destruct (session_get W _ url ua) as [r|];
      [|exists None, [EvGet url ua]; split;
        [by rewrite <- app_assoc | by repeat constructor]].
    destruct (400 <=? status r)%Z;
      [exists None, [EvGet url ua]; split;
        [by rewrite <- app_assoc | by repeat constructor]|].
    destruct (text r) as [content|];
      [|exists None, [EvGet url ua]; split;
        [by rewrite <- app_assoc | by repeat constructor]].
    destruct (nonempty content);
      [|exists None, [EvGet url ua]; split;
        [by rewrite <- app_assoc | by repeat constructor]].
    destruct (html_fromstring W content) as [tr|];
      [exists (Some tr) | exists None];
      exists [EvGet url ua; EvParse content];
      (split; [by rewrite <- !app_assoc | by repeat constructor]).
  - destruct (userAgents W _) as [ua|];
      [|exists None, []; by rewrite app_nil_r].
    destruct (session_get W _ url ua) as [r|];
      [|exists None, [EvGet url ua]; split; [done | by repeat constructor]].
    destruct (400 <=? status r)%Z;
      [exists None, [EvGet url ua]; split; [done | by repeat constructor]|].
    destruct (text r) as [content|];
      [|exists None, [EvGet url ua]; split; [done | by repeat constructor]].
    destruct (nonempty content);
      [|exists None, [EvGet url ua]; split; [done | by repeat constructor]].
    destruct (html_fromstring W content) as [tr|];
      [exists (Some tr) | exists None];
      exists [EvGet url ua; EvParse content];
      (split; [by rewrite <- !app_assoc | by repeat constructor]).
Qed.

(** C7 as stated fails on GScraper.py: the request is the first event of
    the task and the only delay comes after the page has been parsed and
    its links extracted. *)
Lemma GScraper_requests_without_delay :
  (get_business_urls_from_page Sample.world GScraper
     (Sample.start_url +:+ "&page=1") []).2
  = [EvGet (Sample.start_url +:+ "&page=1") Sample.user_agent;
     EvParse "<html>listing 1</html>";
     EvSleep 0.5 1.5].
Proof. vm_compute. reflexivity. Qed.

(** ** C1: a record is exported exactly when it has a name *)

Lemma nonempty_true s : nonempty s = true <-> s <> EmptyString.
Proof. by destruct s. Qed.

(** C1, as the code has it.  The identity field of a page is the joined
    and stripped text of the elements that the business-name selector
    matches, empty when it matches nothing.  A detail task returns a
    record exactly when the page was fetched, every selector of the
    record evaluated without raising and the identity field is not empty,
    and the record carries that field as its ["Business"]: a page with a
    name gives no record when another selector raises, and a page on
    which the name selector matches nothing gives no record.  The results
    of phase 2 are the results of the tasks, one per URL; when one of
    them is a record and the output directory can be created, the run
    hands exactly the records to the exporter, and it never hands over a
    record with an empty ["Business"]. *)
Theorem record_exported_iff_business_name (W : World) (v : variant) :
  (forall tr url,
      (selectors_evaluate W tr <-> exists d, build_details W tr url = Ok d)
      /\ forall d, build_details W tr url = Ok d ->
                   business_name_text W tr = Ok (Business d))
  /\ (forall tr q els,
        SELECTORS W !! "business_name" = Some q ->
        xpath tr q = Ok (XNodes (map XElement els)) ->
        business_name_text W tr
        = Ok (match els with
              | [] => EmptyString
              | _ :: _ => strip (join " " (map text_content els))
              end))
  /\ (forall url t d,
        (scrape_business_details W v url t).1 = Ok (Some d)
        <-> exists tr,
            (fetch_and_parse W v url t).1 = Ok (Some tr)
            /\ build_details W tr url = Ok d
            /\ business_name_text W tr = Ok (Business d)
            /\ Business d <> EmptyString)
  /\ (forall url t tr name,
        (fetch_and_parse W v url t).1 = Ok (Some tr) ->
        selectors_evaluate W tr ->
        business_name_text W tr = Ok name ->
        name <> EmptyString ->
        exists d, (scrape_business_details W v url t).1 = Ok (Some d)
                  /\ Business d = name)
  /\ (forall url t tr,
        (fetch_and_parse W v url t).1 = Ok (Some tr) ->
        ~ selectors_evaluate W tr ->
        (scrape_business_details W v url t).1 = Ok None)
  /\ (forall url t tr q,
        (fetch_and_parse W v url t).1 = Ok (Some tr) ->
        SELECTORS W !! "business_name" = Some q ->
        xpath tr q = Ok (XNodes []) ->
        (scrape_business_details W v url t).1 = Ok None)
  /\ (forall start_url t pages results evs1 results_details evs2,
        yp_lists W v start_url = Ok pages ->
        discovery W v pages t = (Ok results, t ++ evs1) ->
        enrichment W v (merge_results v results).1 (t ++ evs1)
        = (Ok results_details, (t ++ evs1) ++ evs2) ->
        Forall2 (fun url r =>
                   exists ti, (scrape_business_details W v url ti).1 = Ok r)
          (elements (merge_results v results).1) results_details
        /\ (forall d, d ∈ final_data results_details
                      <-> Some d ∈ results_details)
        /\ exists evs,
            run_scraper W v start_url t = (Ok tt, t ++ evs)
            /\ exports evs
               = match final_data results_details with
                 | [] => []
                 | rows =>
                     if is_Ok (create_path W ((t ++ evs1) ++ evs2) OUTPUT_DIR)
                     then [(output_file
                              (sanitized_category
                                 (category_name (merge_results v results).2)),
                            rows)]
                     else []
                 end)
  /\ (forall start_url t evs f rows,
        run_scraper W v start_url t = (Ok tt, t ++ evs) ->
        (f, rows) ∈ exports evs ->
        Forall (fun d => Business d <> EmptyString) rows).
Proof.
  split; [|split; [|split; [|split; [|split; [|split; [|split]]]]]].
  - intros tr url. split; [split|].
    + apply selectors_evaluate_build.
    + intros [d Hd]. by apply build_details_evaluates in Hd.
    + apply build_details_name_text.
  - apply business_name_text_elements.
  - intros url t d. split.
    + unfold scrape_business_details, bind.
      destruct (fetch_and_parse_events W v url t) as (o & evs & Hf & _).
      rewrite Hf. simpl.
      destruct o as [tr|]; [|done].
      destruct (build_details W tr url) as [d0|] eqn:Hb; [|done].
      rewrite ?sleep_run; simpl.
      destruct (nonempty (Business d0)) eqn:Hn; [|done].
      intros [= <-]. exists tr. split; [done|]. split; [done|].
      split; [by apply build_details_name_text in Hb|].
      by apply nonempty_true.
    + intros (tr & Hfetch & Hb & _ & Hn).
      rewrite (scrape_business_details_result _ _ _ _ _ Hfetch), Hb.
      apply nonempty_true in Hn. by rewrite Hn.
  - intros url t tr name Hfetch Hev Hname Hne.
    destruct (selectors_evaluate_build W tr url Hev) as [d Hb].
    pose proof (build_details_name_text _ _ _ _ Hb) as Hd.
    rewrite Hname in Hd. injection Hd as ->.
    exists d. split; [|done].
    rewrite (scrape_business_details_result _ _ _ _ _ Hfetch), Hb.
    apply nonempty_true in Hne. by rewrite Hne.
  - intros url t tr Hfetch Hev.
    rewrite (scrape_business_details_result _ _ _ _ _ Hfetch).
    destruct (build_details W tr url) as [d|] eqn:Hb; [|done].
    by apply build_details_evaluates in Hb.
  - intros url t tr q Hfetch Hsel Hx.
    rewrite (scrape_business_details_result _ _ _ _ _ Hfetch).
    destruct (build_details W tr url) as [d|] eqn:Hb; [|done].
    apply build_details_name_text in Hb.
    rewrite (business_name_text_elements W tr q [] Hsel Hx) in Hb.
    injection Hb as <-. done.
  - intros start_url t pages results evs1 rd evs2 Hyp Hd Hen.
    split; [|split].
    + unfold enrichment in Hen. by apply gather_results_of_tasks in Hen.
    + intros d. unfold final_data. rewrite list_elem_of_omap. split.
      * intros (o & Ho & Hid). simpl in Hid. by subst o.
      * intros Hin. by exists (Some d).
    + by apply (run_scraper_exports W v start_url t pages results evs1 rd evs2).
  - intros start_url t evs f rows Hrun Hin.
    destruct (run_scraper_events W v start_url t) as (evs' & Hrun' & Hex).
    rewrite Hrun in Hrun'. injection Hrun' as Heq.
    apply app_inv_head in Heq. subst evs'.
    destruct Hex as [Hnil|(pages & results & evs1 & rd & evs2 & _ & _ & Hen & Hex)].
    { rewrite Hnil in Hin. by apply elem_of_nil in Hin. }
    rewrite Hex in Hin. apply list_elem_of_singleton in Hin. injection Hin as -> ->.
    destruct (enrichment_events W v (merge_results v results).1 (t ++ evs1))
      as (rd' & evs2' & Hen' & _ & _ & _ & Hall & _).
    rewrite Hen in Hen'. injection Hen' as <- _.
    eapply Forall_impl; [exact Hall|]. intros d Hd. by apply nonempty_true.
Qed.

(** C1 at Joe's page of the sample site: every selector evaluates and
    the page has a name, so the task returns a record with that name. *)
Lemma record_exported_iff_business_name_witness :
  exists d,
    (scrape_business_details Sample.world GScraper
       "https://www.yellowpages.com/mip/joes-pizza-1" []).1 = Ok (Some d)
    /\ Business d = "Joe's Pizza".
Proof.
  destruct (record_exported_iff_business_name Sample.world GScraper)
    as (_ & _ & _ & Hnamed & _).
  apply (Hnamed "https://www.yellowpages.com/mip/joes-pizza-1" []
           Sample.detail_joes "Joe's Pizza" eq_refl).
  - apply (build_details_evaluates Sample.world Sample.detail_joes
             "https://www.yellowpages.com/mip/joes-pizza-1" Sample.joes).
    vm_compute. reflexivity.
  - vm_compute. reflexivity.
  - discriminate.
Defined.

(** C1 as stated fails: on this site the detail page has the name
    "Joe's Pizza", the website selector yields a string and raises, the
    task returns no record, and the run exports nothing. *)
Lemma named_page_gives_no_record :
  business_name_text SampleNamed.world SampleMore.detail_href
  = Ok "Joe's Pizza"
  /\ (get_business_urls_from_page SampleNamed.world GScraper
        SampleNamed.search_url []).1
     = Ok (["https://www.yellowpages.com/mip/joes-pizza-1"], Some "Pizza")
  /\ (fetch_and_parse SampleNamed.world GScraper
        "https://www.yellowpages.com/mip/joes-pizza-1" []).1
     = Ok (Some SampleMore.detail_href)
  /\ (scrape_business_details SampleNamed.world GScraper
        "https://www.yellowpages.com/mip/joes-pizza-1" []).1 = Ok None
  /\ requests (run_scraper SampleNamed.world GScraper SampleNamed.search_url []).2
     = [SampleNamed.search_url; "https://www.yellowpages.com/mip/joes-pizza-1"]
  /\ exports (run_scraper SampleNamed.world GScraper SampleNamed.search_url []).2
     = [].
Proof.
  split; [vm_compute; reflexivity|]. split; [vm_compute; reflexivity|].
  split; [reflexivity|]. repeat split; vm_compute; reflexivity.
Qed.

(** ** C2: one detail fetch per distinct URL *)

(** C2.  The merged set holds exactly the URLs returned by the listing
    pages; phase 2 has one task per element of the set, so no URL has two
    tasks; the requests of phase 2 are a sub-sequence of the task list
    without repetition, and they are the whole task list when the
    user-agent source answers every call; and the requests that a run
    issues after phase 1 are those of phase 2. *)
Theorem one_fetch_per_distinct_url (W : World) (v : variant) :
  (forall results u,
      u ∈ (merge_results v results).1 <-> exists r, r ∈ results /\ u ∈ r.1)
  /\ (forall results,
        NoDup (elements (merge_results v results).1)
        /\ forall u, u ∈ elements (merge_results v results).1
                     <-> u ∈ (merge_results v results).1)
  /\ (forall results t, exists results_details evs,
        enrichment W v (merge_results v results).1 t
        = (Ok results_details, t ++ evs)
        /\ length results_details = length (elements (merge_results v results).1)
        /\ sublist (requests evs) (elements (merge_results v results).1)
        /\ NoDup (requests evs)
        /\ (userAgents_available W ->
            requests evs = elements (merge_results v results).1))
  /\ (forall start_url t pages results evs1,
        yp_lists W v start_url = Ok pages ->
        discovery W v pages t = (Ok results, t ++ evs1) ->
        exists evs2,
          requests (run_scraper W v start_url t).2
          = requests (t ++ evs1) ++ requests evs2
          /\ NoDup (requests evs2)
          /\ (forall u, u ∈ requests evs2 -> exists r, r ∈ results /\ u ∈ r.1)
          /\ (userAgents_available W ->
              requests evs2 = elements (merge_results v results).1)).
Proof.
  split; [apply merge_results_urls|].
  split; [intros results; split;
          [apply NoDup_elements|intros u; apply elem_of_elements]|].
  split.
  - intros results t.
    destruct (enrichment_events W v (merge_results v results).1 t)
      as (rd & evs & Hen & Hsub & Hall & _ & _ & Hlen).
    exists rd, evs. repeat split; try done.
    apply (sublist_NoDup _ (elements (merge_results v results).1));
      [apply NoDup_elements|exact Hsub].
  - intros start_url t pages results evs1 Hyp Hd.
    destruct (run_scraper_requests W v start_url t pages results evs1 Hyp Hd)
      as (evs2 & Hreq & Hsub & Hall).
    exists evs2. repeat split; try done.
    + apply (sublist_NoDup _ (elements (merge_results v results).1));
        [apply NoDup_elements|exact Hsub].
    + intros u Hu. apply merge_results_urls with (v := v).
      apply elem_of_elements. exact (elem_of_sublist _ _ _ Hu Hsub).
Qed.

(** C2 on the two listing pages of the sample site, which share Mario's. *)
Lemma one_fetch_per_distinct_url_witness :
  exists evs2,
    requests (run_scraper Sample.world GScraper Sample.start_url []).2
    = requests ([] ++ (discovery Sample.world GScraper
                         [Sample.start_url +:+ "&page=1";
                          Sample.start_url +:+ "&page=2"] []).2)
      ++ requests evs2
    /\ requests evs2
       = ["https://www.yellowpages.com/mip/marios-2";
          "https://www.yellowpages.com/mip/anonymous-3";
          "https://www.yellowpages.com/mip/joes-pizza-1"].
Proof.
  destruct (proj2 (proj2 (proj2 (one_fetch_per_distinct_url Sample.world GScraper)))
              Sample.start_url []
              [Sample.start_url +:+ "&page=1"; Sample.start_url +:+ "&page=2"]
              [(["https://www.yellowpages.com/mip/joes-pizza-1";
                 "https://www.yellowpages.com/mip/marios-2"], Some "Pizza");
               (["https://www.yellowpages.com/mip/marios-2";
                 "https://www.yellowpages.com/mip/anonymous-3"],
                Some "Pizza Restaurants")]
              (discovery Sample.world GScraper
                 [Sample.start_url +:+ "&page=1";
                  Sample.start_url +:+ "&page=2"] []).2
              eq_refl ltac:(vm_compute; reflexivity))
    as (evs2 & Hreq & _ & _ & Hall).
  exists evs2. split; [exact Hreq|].
  rewrite (Hall (fun _ => eq_refl)). vm_compute. reflexivity.
Defined.

(** ** C3: a no-results page gives no URL *)

(** C3.  When the elements matched by the page-content selector have a
    text that begins with "No results found for", in any letter case,
    the listing task returns an empty URL list, whatever the URL selector
    matched. *)
Theorem no_results_page_yields_no_urls (W : World) (v : variant)
    (url : string) (t : trace) (tr : tree) (q : string) (els : list element) :
  (fetch_and_parse W v url t).1 = Ok (Some tr) ->
  SELECTORS W !! "page_content" = Some q ->
  xpath tr q = Ok (XNodes (map XElement els)) ->
  begins_ignoring_case "No results found for"
    (strip (join " " (map text_content els))) ->
  exists category,
    (get_business_urls_from_page W v url t).1 = Ok ([], category).
Proof.
  intros Hfetch Hsel Hx Hbegin.
  apply re_search_prefix_ignorecase_spec in Hbegin.
  unfold get_business_urls_from_page, bind.
  destruct (fetch_and_parse W v url t) as [r t']. simpl in Hfetch. subst r.
  destruct (listing_category W tr) as [category|]; [|by exists None].
  destruct (listing_links W tr) as [links|]; [|by exists category].
  assert (Hpc : listing_page_content W tr
                = Ok (strip (join " " (map text_content els)))).
  { unfold listing_page_content, selector. rewrite Hsel. simpl. rewrite Hx. simpl.
    apply joined_text_elements. }
  rewrite Hpc, Hbegin. by exists category.
Qed.

(** C3 at the no-results page of the sample site, on which the URL
    selector matches a featured link. *)
Lemma no_results_page_yields_no_urls_witness :
  exists category,
    (get_business_urls_from_page Sample.world GSscraper
       "https://www.yellowpages.com/search?search_terms=zzz" []).1
    = Ok ([], category).
Proof.
  apply (no_results_page_yields_no_urls Sample.world GSscraper
           "https://www.yellowpages.com/search?search_terms=zzz" []
           Sample.no_results Sample.q_page_content
           [{| text_content := "  no results FOUND for pizza in Nowhere, NY ";
               attrib := ∅ |}]
           eq_refl eq_refl eq_refl).
  exists "no results FOUND for", " pizza in Nowhere, NY".
  split; reflexivity.
Defined.

(** ** C5: a selector key that is missing *)

(** A detail task gives no record when a key of the detail page is
    missing from the selector table. *)
Lemma scrape_business_details_missing_key W v key :
  key ∈ detail_keys -> SELECTORS W !! key = None ->
  forall url t, (scrape_business_details W v url t).1 = Ok None.
Proof.
  intros Hkey Hnone url t. unfold scrape_business_details, bind.
  destruct (fetch_and_parse_events W v url t) as (o & evs & -> & _).
  destruct o as [tr|]; [|done].
  destruct (build_details W tr url) as [d|] eqn:Hb; [|done].
  apply build_details_keys in Hb.
  rewrite Forall_forall in Hb. destruct (Hb key Hkey) as [q Hq]. congruence.
Qed.

Lemma final_data_all_None (l : list string) (rd : list (option details)) :
  Forall2 (fun _ r => r = None) l rd -> final_data rd = [].
Proof. induction 1 as [|x r l rd -> _ IH]; [done|]. exact IH. Qed.

(** C5, as the code has it.  A key that is missing from the selector
    table raises [KeyError] where it is looked up, and the task of the
    page catches it.  A detail task then returns [None].  A listing task
    returns the pair it has so far: no URL and no category for the key of
    the categories, no URL and the category found for the key of the
    URLs, the URLs and the category found for the key of the page
    content.  The run returns normally; with a key of the detail page
    missing it writes no spreadsheet; and whatever the table holds it
    goes on with the other pages: it requests every listing page and then
    every URL of the merged set. *)
Theorem missing_selector_key_is_absorbed (W : World) (v : variant) :
  (forall key,
      key ∈ detail_keys -> SELECTORS W !! key = None ->
      forall url t, (scrape_business_details W v url t).1 = Ok None)
  /\ (forall url t, exists links category,
        (get_business_urls_from_page W v url t).1 = Ok (links, category))
  /\ (forall url t tr,
        (fetch_and_parse W v url t).1 = Ok (Some tr) ->
        (SELECTORS W !! "categories" = None ->
         (get_business_urls_from_page W v url t).1 = Ok ([], None))
        /\ (forall category,
              SELECTORS W !! "business_urls" = None ->
              listing_category W tr = Ok category ->
              (get_business_urls_from_page W v url t).1 = Ok ([], category))
        /\ (forall category links,
              SELECTORS W !! "page_content" = None ->
              listing_category W tr = Ok category ->
              listing_links W tr = Ok links ->
              (get_business_urls_from_page W v url t).1 = Ok (links, category)))
  /\ (forall start_url t, (run_scraper W v start_url t).1 = Ok tt)
  /\ (forall key,
        key ∈ detail_keys -> SELECTORS W !! key = None ->
        forall start_url t, exists evs,
          run_scraper W v start_url t = (Ok tt, t ++ evs) /\ exports evs = [])
  /\ (forall start_url t pages,
        yp_lists W v start_url = Ok pages ->
        userAgents_available W ->
        exists results evs1 evs2,
          discovery W v pages t = (Ok results, t ++ evs1)
          /\ length results = length pages
          /\ requests evs1 = pages
          /\ requests (run_scraper W v start_url t).2
             = requests t ++ pages ++ requests evs2
          /\ requests evs2 = elements (merge_results v results).1).
Proof.
  split; [|split; [|split; [|split; [|split]]]].
  - intros key Hkey Hnone. by apply scrape_business_details_missing_key with key.
  - intros url t. apply get_business_urls_from_page_returns.
  - intros url t tr Hfetch. unfold get_business_urls_from_page, bind.
    destruct (fetch_and_parse W v url t) as [r t']. simpl in Hfetch. subst r.
    split; [|split].
    + intros Hnone. unfold listing_category, selector, rbind. by rewrite Hnone.
    + intros category Hnone ->.
      unfold listing_links, selector, rbind. by rewrite Hnone.
    + intros category links Hnone -> ->.
      unfold listing_page_content, selector, rbind. by rewrite Hnone.
  - intros start_url t.
    destruct (run_scraper_events W v start_url t) as (evs & -> & _). done.
  - intros key Hkey Hnone start_url t.
    destruct (run_scraper_events W v start_url t) as (evs & Hrun & Hex).
    exists evs. split; [done|].
    destruct Hex as [Hnil|(pages & results & evs1 & rd & evs2 & Hyp & Hd & Hen & _)];
      [done|].
    destruct (run_scraper_exports W v start_url t pages results evs1 rd evs2
                Hyp Hd Hen) as (evs' & Hrun' & Hex').
    rewrite Hrun in Hrun'. injection Hrun' as Heq.
    apply app_inv_head in Heq. subst evs'. rewrite Hex'.
    unfold enrichment in Hen. apply gather_results_of_tasks in Hen.
    rewrite (final_data_all_None (elements (merge_results v results).1) rd); [done|].
    eapply Forall2_impl; [exact Hen|]. intros url r [ti Hr]. simpl in Hr.
    rewrite (scrape_business_details_missing_key W v key Hkey Hnone) in Hr.
    by injection Hr as <-.
  - intros start_url t pages Hyp Hua.
    destruct (discovery_requests W v pages t Hua) as (results & evs1 & Hd & Hlen & Hr1).
    destruct (run_scraper_requests W v start_url t pages results evs1 Hyp Hd)
      as (evs2 & Hreq & _ & Hall).
    exists results, evs1, evs2. repeat split; try done.
    + by rewrite Hreq, requests_app, Hr1, <- app_assoc.
    + by apply Hall.
Qed.

(** C5 on the sample site with the key of the business name removed. *)
Lemma missing_selector_key_is_absorbed_witness :
  (scrape_business_details
     (Sample.world_without "business_name") GSscraper
     "https://www.yellowpages.com/mip/joes-pizza-1" []).1 = Ok None.
Proof.
  apply (proj1 (missing_selector_key_is_absorbed
                  (Sample.world_without "business_name")
                  GSscraper)
           "business_name" ltac:(left) eq_refl).
Defined.

(** C5 as stated fails: with the key of the business name missing, the
    lookup raises [KeyError], the detail task returns [None] like the task
    of a page without a name, and the run goes on to request the other
    detail pages and returns. *)
Lemma missing_key_does_not_stop_the_run :
  selector (Sample.world_without "business_name")
    "business_name" = Raise (KeyError "business_name")
  /\ (scrape_business_details
        (Sample.world_without "business_name") GSscraper
        "https://www.yellowpages.com/mip/joes-pizza-1" []).1
     = (scrape_business_details Sample.world GSscraper
          "https://www.yellowpages.com/mip/anonymous-3" []).1
  /\ (run_scraper (Sample.world_without "business_name")
        GSscraper Sample.start_url []).1 = Ok tt
  /\ drop 9 (requests
       (run_scraper (Sample.world_without "business_name")
          GSscraper Sample.start_url []).2)
     = ["https://www.yellowpages.com/mip/marios-2";
        "https://www.yellowpages.com/mip/anonymous-3";
        "https://www.yellowpages.com/mip/joes-pizza-1"].
Proof. repeat split; vm_compute; reflexivity. Qed.

(** ** C6: a selector that raises on a listing page *)

(** C6, as the code has it.  An exception of a selector on a listing page
    never leaves the task, and phase 1 has a pair for every page.  The
    pair holds what was extracted before the exception: no URL and no
    category when the category step raises, no URL and the category when
    the URL step raises, the URLs and the category when the page-content
    step raises. *)
Theorem listing_selector_error_is_absorbed (W : World) (v : variant)
    (url : string) (t : trace) :
  (exists links category,
      (get_business_urls_from_page W v url t).1 = Ok (links, category))
  /\ (forall tr,
        (fetch_and_parse W v url t).1 = Ok (Some tr) ->
        (forall e,
            listing_category W tr = Raise e ->
            (get_business_urls_from_page W v url t).1 = Ok ([], None))
        /\ (forall category e,
              listing_category W tr = Ok category ->
              listing_links W tr = Raise e ->
              (get_business_urls_from_page W v url t).1 = Ok ([], category))
        /\ (forall category links e,
              listing_category W tr = Ok category ->
              listing_links W tr = Ok links ->
              listing_page_content W tr = Raise e ->
              (get_business_urls_from_page W v url t).1 = Ok (links, category)))
  /\ (forall pages, exists results evs,
        discovery W v pages t = (Ok results, t ++ evs)
        /\ length results = length pages).
Proof.
  split; [apply get_business_urls_from_page_returns|]. split.
  - intros tr Hfetch. unfold get_business_urls_from_page, bind.
    destruct (fetch_and_parse W v url t) as [r t']. simpl in Hfetch. subst r.
    split; [|split].
    + intros e ->. done.
    + intros category e -> ->. done.
    + intros category links e -> -> ->. done.
  - intros pages.
    destruct (discovery_events W v pages t) as (results & evs & Hd & Hlen & _).
    by exists results, evs.
Qed.

(** C6 on the first listing page of the sample site with the key of the
    categories removed. *)
Lemma listing_selector_error_is_absorbed_witness :
  (get_business_urls_from_page
     (Sample.world_without "categories") GScraper
     (Sample.start_url +:+ "&page=1") []).1 = Ok ([], None).
Proof.
  apply (proj1 (proj1 (proj2 (listing_selector_error_is_absorbed
                   (Sample.world_without "categories")
                   GScraper (Sample.start_url +:+ "&page=1") []))
                 Sample.listing1 eq_refl)
           (KeyError "categories") eq_refl).
Defined.

(** C6 as stated fails: with the key of the page content missing, the
    selector lookup raises on the first listing page, and the task still
    returns the two URLs and the category of that page. *)
Lemma listing_error_keeps_extracted_urls :
  listing_page_content
    (Sample.world_without "page_content") Sample.listing1
  = Raise (KeyError "page_content")
  /\ (get_business_urls_from_page
        (Sample.world_without "page_content") GScraper
        (Sample.start_url +:+ "&page=1") []).1
     = Ok (["https://www.yellowpages.com/mip/joes-pizza-1";
            "https://www.yellowpages.com/mip/marios-2"], Some "Pizza").
Proof. split; vm_compute; reflexivity. Qed.

(** ** C8: the name of the export artifact *)

Lemma general_scrape_safe :
  Forall (fun c => c ∉ unsafe_chars) (list_ascii_of_string "General_Scrape").
Proof.
  repeat constructor; intros Hc%list_elem_of_In; simpl in Hc;
    intuition discriminate.
Qed.

(** C8.  The sanitized category of the run is the [artifact_name] of the
    listing results: the first non-empty category in page order, or
    "Unknown_Category", with the unsafe characters removed and the ends
    stripped, or "General_Scrape" when nothing is left.  The name holds
    no unsafe character and is never empty, and a spreadsheet written by
    a run is named after it. *)
Theorem export_artifact_name (W : World) (v : variant) :
  (forall results,
      sanitized_category (category_name (merge_results v results).2)
      = artifact_name results)
  /\ (forall results c,
        c ∈ list_ascii_of_string (artifact_name results) -> c ∉ unsafe_chars)
  /\ (forall results, artifact_name results <> EmptyString)
  /\ (forall start_url t evs f rows,
        run_scraper W v start_url t = (Ok tt, t ++ evs) ->
        (f, rows) ∈ exports evs ->
        exists pages results evs1,
          yp_lists W v start_url = Ok pages
          /\ discovery W v pages t = (Ok results, t ++ evs1)
          /\ f = OUTPUT_DIR +:+ "/" +:+ artifact_name results +:+ ".xlsx").
Proof.
  split; [apply sanitized_category_artifact_name|]. split; [|split].
  - intros results c. unfold artifact_name. cbv zeta.
    destruct (strip _) as [|a cleaned] eqn:Hs.
    + intros Hc. pose proof general_scrape_safe as Hg.
      rewrite Forall_forall in Hg. by apply Hg.
    + rewrite <- Hs. intros Hc%strip_chars. by apply re_sub_class_chars in Hc as [_ ?].
  - intros results. unfold artifact_name. cbv zeta. by destruct (strip _).
  - intros start_url t evs f rows Hrun Hin.
    destruct (run_scraper_events W v start_url t) as (evs' & Hrun' & Hex).
    rewrite Hrun in Hrun'. injection Hrun' as Heq.
    apply app_inv_head in Heq. subst evs'.
    destruct Hex as [Hnil|(pages & results & evs1 & rd & evs2 & Hyp & Hd & _ & Hex)].
    { rewrite Hnil in Hin. by apply elem_of_nil in Hin. }
    rewrite Hex in Hin. apply list_elem_of_singleton in Hin. injection Hin as -> _.
    exists pages, results, evs1. repeat split; try done.
    by rewrite sanitized_category_artifact_name.
Qed.

(** C8 on the run over the sample site, whose first page has the
    category "Pizza" and whose second page has "Pizza Restaurants". *)
Lemma export_artifact_name_witness :
  exists pages results evs1,
    yp_lists Sample.world GScraper Sample.start_url = Ok pages
    /\ discovery Sample.world GScraper pages [] = (Ok results, [] ++ evs1)
    /\ "Yellowpage_database/Pizza.xlsx"
       = OUTPUT_DIR +:+ "/" +:+ artifact_name results +:+ ".xlsx".
Proof.
  apply (proj2 (proj2 (proj2 (export_artifact_name Sample.world GScraper)))
           Sample.start_url []
           (run_scraper Sample.world GScraper Sample.start_url []).2
           "Yellowpage_database/Pizza.xlsx" [Sample.joes]).
  - vm_compute. reflexivity.
  - vm_compute. left.
Defined.

(** ** C10: how a listing link becomes a URL *)

(** C10.  On a listing page whose category step and URL selector
    succeed and which is not a no-results page, the URLs returned are the
    string results of the URL selector, in order, each with the origin
    put in front of it; the results that are not strings leave no
    trace. *)
Theorem listing_links_are_origin_prefixed (W : World) (v : variant)
    (url : string) (t : trace) (tr : tree) (category : option string)
    (q : string) (raw_links : list xitem) :
  (fetch_and_parse W v url t).1 = Ok (Some tr) ->
  listing_category W tr = Ok category ->
  SELECTORS W !! "business_urls" = Some q ->
  xpath tr q = Ok (XNodes raw_links) ->
  (forall page_content,
      listing_page_content W tr = Ok page_content ->
      ~ begins_ignoring_case "No results found for" page_content) ->
  (get_business_urls_from_page W v url t).1
  = Ok (map (fun link => "https://www.yellowpages.com" +:+ link)
          (string_items raw_links),
        category).
Proof.
  intros Hfetch Hcat Hsel Hx Hpage.
  assert (Hlinks : listing_links W tr
                   = Ok (map (fun link => "https://www.yellowpages.com" +:+ link)
                           (string_items raw_links))).
  { unfold listing_links, selector. rewrite Hsel. simpl. rewrite Hx. simpl.
    f_equal. clear.
    induction raw_links as [|[e|s] raw IH]; [done|exact IH|].
    exact (f_equal (cons (origin +:+ s)) IH). }
  unfold get_business_urls_from_page, bind.
  destruct (fetch_and_parse W v url t) as [r t']. simpl in Hfetch. subst r.
  rewrite Hcat, Hlinks.
  destruct (listing_page_content W tr) as [page_content|]; [|done].
  destruct (re_search_prefix_ignorecase _ page_content) eqn:Hre.
  - apply re_search_prefix_ignorecase_spec in Hre. by destruct (Hpage page_content).
  - by rewrite sleep_run.
Qed.

(** C10 on a listing page whose URL selector gives an absolute URL, an
    element and a relative link: the element is dropped and the absolute
    URL gets the origin a second time. *)
Lemma listing_links_are_origin_prefixed_witness :
  (get_business_urls_from_page Sample.world GScraper
     "https://www.yellowpages.com/search?search_terms=abs" []).1
  = Ok (["https://www.yellowpages.comhttps://www.yellowpages.com/mip/joes-pizza-1";
         "https://www.yellowpages.com/mip/marios-2"],
        Some "Pizza").
Proof.
  apply (listing_links_are_origin_prefixed Sample.world GScraper
           "https://www.yellowpages.com/search?search_terms=abs" []
           Sample.absolute_links (Some "Pizza") Sample.q_business_urls
           [XString "https://www.yellowpages.com/mip/joes-pizza-1";
            Sample.el "Mario's"; XString "/mip/marios-2"]
           eq_refl eq_refl eq_refl eq_refl).
  intros page_content Hpc Hbegin.
  apply re_search_prefix_ignorecase_spec in Hbegin.
  vm_compute in Hpc. injection Hpc as <-. vm_compute in Hbegin. discriminate.
Defined.

(** ** The sample site, run *)

Example sample_build_details :
  build_details Sample.world Sample.detail_joes
    "https://www.yellowpages.com/mip/joes-pizza-1" = Ok Sample.joes.
Proof. vm_compute. reflexivity. Qed.

Example sample_run :
  exports (run_scraper Sample.world GScraper Sample.start_url []).2
  = [("Yellowpage_database/Pizza.xlsx", [Sample.joes])].
Proof. vm_compute. reflexivity. Qed.

(** * Further properties of the two scripts *)

(** ** [verify_yellow] *)

Lemma lowercase_empty front : lowercase front = EmptyString -> front = EmptyString.
Proof. by destruct front. Qed.

Lemma re_match_literal_ignorecase_spec p s rest :
  re_match_literal_ignorecase p s = Some rest
  <-> exists front, s = front +:+ rest /\ lowercase front = lowercase p.
Proof.
  revert s. induction p as [|a p IH]; intros s; simpl.
  - split.
    + intros [= ->]. by exists EmptyString.
    + intros (front & -> & Hl). by apply lowercase_empty in Hl as ->.
  - destruct s as [|b s].
    + split; [done|]. intros (front & Hs & Hl). by destruct front.
    + destruct (Ascii.eqb_spec (lower a) (lower b)) as [Hab|Hab].
      * rewrite IH. split.
        -- intros (front & -> & Hl). exists (String b front).
           split; [done|]. by rewrite !lowercase_cons, Hl, Hab.
        -- intros (front & Hs & Hl). destruct front as [|c front]; [done|].
           injection Hs as -> ->. rewrite !lowercase_cons in Hl.
           injection Hl as _ Hl. by exists front.
      * split; [done|]. intros (front & Hs & Hl).
        destruct front as [|c front]; [done|].
        injection Hs as -> ->. rewrite !lowercase_cons in Hl.
        injection Hl as Hc _. by destruct Hab.
Qed.

Lemma re_dot_plus_spec s :
  re_dot_plus s = true <-> exists c rest, s = String c rest /\ c <> "010"%char.
Proof.
  destruct s as [|c s]; simpl.
  - split; [done|]. by intros (c & rest & ? & _).
  - destruct (Ascii.eqb_spec c "010"%char) as [->|Hc]; simpl.
    + split; [done|]. by intros (c & rest & [= <- _] & ?).
    + split; [|done]. intros _. by exists c, s.
Qed.

Lemma yp_pattern_with_spec alternative yp_url :
  yp_pattern_with alternative yp_url = true
  <-> exists proto host c rest,
      yp_url = proto +:+ host +:+ String c rest
      /\ lowercase proto = lowercase alternative
      /\ lowercase host = "yellowpages.com/"
      /\ c <> "010"%char.
Proof.
  unfold yp_pattern_with. split.
  - destruct (re_match_literal_ignorecase alternative yp_url) as [rest|] eqn:H1;
      [|done].
    destruct (re_match_literal_ignorecase "yellowpages.com/" rest) as [tail|] eqn:H2;
      [|done].
    intros (c & rest' & -> & Hc)%re_dot_plus_spec.
    apply re_match_literal_ignorecase_spec in H1 as (proto & -> & Hp).
    apply re_match_literal_ignorecase_spec in H2 as (host & -> & Hh).
    by exists proto, host, c, rest'.
  - intros (proto & host & c & rest & -> & Hp & Hh & Hc).
    assert (H1 : re_match_literal_ignorecase alternative
                   (proto +:+ host +:+ String c rest)
                 = Some (host +:+ String c rest)).
    { apply re_match_literal_ignorecase_spec. by exists proto. }
    assert (H2 : re_match_literal_ignorecase "yellowpages.com/"
                   (host +:+ String c rest) = Some (String c rest)).
    { apply re_match_literal_ignorecase_spec. by exists host. }
    rewrite H1, H2. apply re_dot_plus_spec. by exists c, rest.
Qed.

(** X1.  [verify_yellow] answers [False] (a valid URL) for every string
    made of "https://", "www." or nothing, then "yellowpages.com/", then
    at least one character that is not a newline, whatever the case of
    the letters A to Z in the two literals. *)
Theorem verify_yellow_valid_form (yp_url proto host : string) (c : ascii)
    (rest : string) :
  yp_url = proto +:+ host +:+ String c rest ->
  lowercase proto = "https://" \/ lowercase proto = "www."
  \/ proto = EmptyString ->
  lowercase host = "yellowpages.com/" ->
  c <> "010"%char ->
  verify_yellow yp_url = false.
Proof.
  intros -> Hproto Hhost Hc.
  unfold verify_yellow, yp_pattern. rewrite negb_false_iff. simpl.
  rewrite !orb_true_iff, !yp_pattern_with_spec.
  destruct Hproto as [Hp | [Hp | ->]].
  - left. by exists proto, host, c, rest.
  - right; left. by exists proto, host, c, rest.
  - right; right; left. by exists EmptyString, host, c, rest.
Qed.

(** X1 on a URL with the scheme and without "www.". *)
Lemma verify_yellow_valid_form_witness :
  verify_yellow "https://YellowPages.com/search?search_terms=pizza" = false.
Proof.
  apply (verify_yellow_valid_form
           "https://YellowPages.com/search?search_terms=pizza"
           "https://" "YellowPages.com/" "s"%char "earch?search_terms=pizza"
           eq_refl (or_introl eq_refl) eq_refl).
  discriminate.
Defined.

(** X2.  [verify_yellow] reports as invalid every URL that begins with
    "https://www." and every URL that begins with "http://": the scheme
    and the "www." prefix are alternatives of one group, and "http://" is
    none of them. *)
Theorem verify_yellow_rejects_www_urls (rest : string) :
  verify_yellow ("https://www." +:+ rest) = true
  /\ verify_yellow ("http://" +:+ rest) = true.
Proof. split; reflexivity. Qed.

(** ** [yp_lists] of GSscraper.py *)

Lemma append_inj_r (p a b : string) : p +:+ a = p +:+ b -> a = b.
Proof. induction p as [|c p IH]; simpl; [done|]. intros [= H]. by apply IH. Qed.

(** X3.  [yp_lists] of GSscraper.py returns nine page URLs for every
    search URL: the search URL followed by "&page=" and the numbers 1 to
    9, all different. *)
Theorem GS_yp_lists_nine_pages (yp_url : string) :
  length (GS_yp_lists yp_url) = 9
  /\ NoDup (GS_yp_lists yp_url)
  /\ (forall page, page ∈ GS_yp_lists yp_url
                   <-> exists num, 1 <= num <= 9
                                   /\ page = yp_url +:+ "&page=" +:+ str num).
Proof.
  split; [reflexivity|]. split.
  - unfold GS_yp_lists. apply NoDup_fmap_2_strong; [|apply NoDup_seq].
    intros n m Hn Hm Heq. apply append_inj_r in Heq.
    apply elem_of_seq in Hn, Hm.
    assert (Hc : n = 1 \/ n = 2 \/ n = 3 \/ n = 4 \/ n = 5 \/ n = 6
                 \/ n = 7 \/ n = 8 \/ n = 9) by lia.
    assert (Hd : m = 1 \/ m = 2 \/ m = 3 \/ m = 4 \/ m = 5 \/ m = 6
                 \/ m = 7 \/ m = 8 \/ m = 9) by lia.
    clear Hn Hm.
    repeat (destruct Hc as [->|Hc]); try subst n;
      repeat (destruct Hd as [->|Hd]); try subst m;
      try done; vm_compute in Heq; discriminate.
  - intros page. unfold GS_yp_lists. rewrite list_elem_of_fmap. split.
    + intros (num & -> & Hn%elem_of_seq). exists num. split; [lia|done].
    + intros (num & Hn & ->). exists num. split; [done|].
      apply elem_of_seq. lia.
Qed.

(** ** [userAgents] of GSscraper.py *)

Lemma filter_nonempty_all_empty (l : list string) :
  Forall (fun line => line = EmptyString) l -> List.filter nonempty l = [].
Proof.
  induction 1 as [|x l -> _ IH]; simpl; [done|]. exact IH.
Qed.





(** X5.  When the file cannot be read, or has no line that is not empty,
    [userAgents] returns the default agent: the [IndexError] of
    [random.choice] on an empty list is caught like a missing file. *)
Theorem GS_userAgents_default (read : result string) (draw : nat) :
  (forall content,
      read = Ok content ->
      Forall (fun line => line = EmptyString) (splitlines content)) ->
  GS_userAgents read draw = Ok DEFAULT_USER_AGENT.
Proof.
  intros Hread. unfold GS_userAgents, rbind.
  destruct read as [content|e]; [|by destruct e].
  by rewrite (filter_nonempty_all_empty _ (Hread content eq_refl)).
Qed.

(** X5 on a file that holds two line feeds and nothing else. *)
Lemma GS_userAgents_default_witness :
  GS_userAgents (Ok (String "010" (String "010" EmptyString))) 7
  = Ok DEFAULT_USER_AGENT.
Proof.
  apply (GS_userAgents_default (Ok (String "010" (String "010" EmptyString))) 7).
  intros content [= <-]. vm_compute. repeat constructor.
Defined.



(** ** The log label of a detail page *)

Lemma chars_app (a b : string) :
  list_ascii_of_string (a +:+ b)
  = list_ascii_of_string a ++ list_ascii_of_string b.
Proof. induction a as [|c a IH]; simpl; [done|]. by rewrite IH. Qed.

Lemma split_not_nil sep s : split sep s <> [].
Proof.
  destruct s as [|c s]; simpl; [done|].
  destruct (Ascii.eqb c sep); [done|]. by destruct (split sep s).
Qed.

(** A piece of [s.split(sep)] is made of characters of [s] and holds no
    separator. *)
Lemma split_chars sep s piece c :
  piece ∈ split sep s ->
  c ∈ list_ascii_of_string piece ->
  c <> sep /\ c ∈ list_ascii_of_string s.
Proof.
  revert piece. induction s as [|a s IH]; intros piece; simpl.
  - intros ->%list_elem_of_singleton. simpl. by intros ?%elem_of_nil.
  - destruct (Ascii.eqb_spec a sep) as [->|Ha].
    + intros [->|Hp]%elem_of_cons; [by intros ?%elem_of_nil|].
      intros Hc. destruct (IH piece Hp Hc). split; [done|by right].
    + destruct (split sep s) as [|p ps].
      * intros ->%list_elem_of_singleton. simpl.
        intros [->|?%elem_of_nil]%elem_of_cons; [|done]. split; [done|left].
      * intros [->|Hp]%elem_of_cons.
        -- simpl. intros [->|Hc]%elem_of_cons; [split; [done|left]|].
           destruct (IH p ltac:(left) Hc). split; [done|by right].
        -- intros Hc. destruct (IH piece ltac:(by right) Hc).
           split; [done|by right].
Qed.

Lemma join_chars sep (l : list string) c :
  c ∈ list_ascii_of_string (join sep l) ->
  c ∈ list_ascii_of_string sep
  \/ exists piece, piece ∈ l /\ c ∈ list_ascii_of_string piece.
Proof.
  unfold join. induction l as [|x l IH]; simpl.
  - by intros ?%elem_of_nil.
  - destruct l as [|y l].
    + intros Hc. right. exists x. split; [left|done].
    + rewrite !chars_app, !elem_of_app. intros [Hc|[Hc|Hc]].
      * right. exists x. split; [left|done].
      * by left.
      * destruct (IH Hc) as [?|(piece & Hp & ?)]; [by left|].
        right. exists piece. split; [by right|done].
Qed.

Lemma elem_of_removelast {A} (l : list A) x : x ∈ removelast l -> x ∈ l.
Proof.
  induction l as [|a l IH]; simpl; [done|].
  destruct l as [|b l]; [by intros ?%elem_of_nil|].
  intros [->|H]%elem_of_cons; [left|right; by apply IH].
Qed.

(** X7.  The label logged for a detail URL is always defined (the three
    indexings never fail), and it holds no slash, no question mark and no
    hyphen: it is the last path segment without its query, its hyphens
    turned into spaces and its last hyphen-separated part dropped. *)
Theorem bizz_name_print_label (business_url : string) :
  exists label,
    bizz_name_print business_url = Ok label
    /\ forall c, c ∈ list_ascii_of_string label ->
                 c <> "/"%char /\ c <> "?"%char /\ c <> "-"%char.
Proof.
  unfold bizz_name_print, rbind, py_last, py_first.
  destruct (last (split "/" business_url)) as [segment|] eqn:Hlast.
  2: { apply last_None in Hlast. by destruct (split_not_nil "/" business_url). }
  apply last_Some_elem_of in Hlast.
  destruct (split "?" segment) as [|name names] eqn:Hq.
  { by destruct (split_not_nil "?" segment). }
  assert (Hname : name ∈ split "?" segment) by (rewrite Hq; left).
  eexists. split; [done|]. intros c Hc.
  apply join_chars in Hc as [Hc|(piece & Hp & Hc)].
  - simpl in Hc. apply list_elem_of_singleton in Hc as ->. done.
  - apply elem_of_removelast in Hp.
    destruct (split_chars _ _ _ _ Hp Hc) as [Hdash Hc1].
    destruct (split_chars _ _ _ _ Hname Hc1) as [Hquest Hc2].
    destruct (split_chars _ _ _ _ Hlast Hc2) as [Hslash _].
    done.
Qed.

(** ** The run when there is nothing to crawl or nowhere to write *)

Lemma merge_results_no_urls v results :
  Forall (fun r => r.1 = []) results -> elements (merge_results v results).1 = [].
Proof.
  intros Hall.
  assert (Hempty : (merge_results v results).1 = ∅).
  { apply elem_of_equiv_empty_L. intros u (r & Hr & Hu)%merge_results_urls.
    rewrite Forall_forall in Hall. rewrite (Hall r Hr) in Hu.
    by apply elem_of_nil in Hu. }
  rewrite Hempty. apply elements_empty.
Qed.

(** X8.  A run that has nothing to crawl stops without any further call:
    when [yp_lists] raises or gives no page the trace is left as it was,
    and when no listing page gives a URL the run ends right after phase
    1, with no detail request, no output directory and no spreadsheet. *)
Theorem run_scraper_nothing_to_crawl (W : World) (v : variant)
    (start_url : string) (t : trace) :
  (forall e, yp_lists W v start_url = Raise e ->
             run_scraper W v start_url t = (Ok tt, t))
  /\ (yp_lists W v start_url = Ok [] ->
      run_scraper W v start_url t = (Ok tt, t))
  /\ (forall pages results evs1,
        yp_lists W v start_url = Ok pages ->
        discovery W v pages t = (Ok results, t ++ evs1) ->
        Forall (fun r => r.1 = []) results ->
        run_scraper W v start_url t = (Ok tt, t ++ evs1)).
Proof.
  unfold run_scraper. split; [|split].
  - by intros e ->.
  - by intros ->.
  - intros pages results evs1 -> Hd Hall.
    destruct pages as [|p pages].
    { unfold discovery in Hd. simpl in Hd. unfold ret in Hd.
      by injection Hd as _ <-. }
    unfold bind. rewrite Hd.
    pose proof (merge_results_no_urls v results Hall) as Hel.
    destruct (merge_results v results) as [urls cats]. simpl in Hel.
    by rewrite Hel.
Qed.

(** X8 on a search whose two pages are not on the sample site. *)
Lemma run_scraper_nothing_to_crawl_witness :
  run_scraper Sample.world GScraper
    "https://www.yellowpages.com/search?search_terms=none" []
  = (Ok tt,
     [] ++ [EvGet "https://www.yellowpages.com/search?search_terms=none&page=1"
              Sample.user_agent;
            EvGet "https://www.yellowpages.com/search?search_terms=none&page=2"
              Sample.user_agent]).
Proof.
  apply (proj2 (proj2 (run_scraper_nothing_to_crawl Sample.world GScraper
                  "https://www.yellowpages.com/search?search_terms=none" []))
           ["https://www.yellowpages.com/search?search_terms=none&page=1";
            "https://www.yellowpages.com/search?search_terms=none&page=2"]
           [([], None); ([], None)]).
  - reflexivity.
  - vm_compute. reflexivity.
  - repeat constructor.
Defined.

(** A run is phases 1 and 2, which write nothing, and then at most the
    saving of a non-empty list of rows. *)
Lemma run_scraper_shape W v start_url t :
  exists evs12,
    exports evs12 = []
    /\ (run_scraper W v start_url t = (Ok tt, t ++ evs12)
        \/ exists sanitized rows,
            rows <> []
            /\ run_scraper W v start_url t
               = save_results W sanitized rows (t ++ evs12)).
Proof.
  unfold run_scraper.
  destruct (yp_lists W v start_url) as [pages|e].
  2: { exists []. rewrite app_nil_r. by split; [|left]. }
  destruct pages as [|p pages].
  { exists []. rewrite app_nil_r. by split; [|left]. }
  unfold bind.
  destruct (discovery_events W v (p :: pages) t) as (results & evs1 & -> & _ & _ & He1).
  destruct (merge_results v results) as [urls cats].
  destruct (elements urls) as [|u us]; [exists evs1; by split; [|left]|].
  destruct (enrichment_events W v urls (t ++ evs1))
    as (rd & evs2 & -> & _ & _ & He2 & _).
  exists (evs1 ++ evs2). rewrite exports_app, He1, He2, app_assoc.
  split; [done|].
  destruct (final_data rd) as [|d ds]; [by left|right].
  by exists (sanitized_category (category_name cats)), (d :: ds).
Qed.

(** X9.  When the output directory cannot be created, no spreadsheet is
    written and the run still returns normally: [to_excel] is not reached
    and the error is caught. *)
Theorem run_scraper_without_output_dir (W : World) (v : variant)
    (start_url : string) (t : trace) :
  (forall t' dir, is_Ok (create_path W t' dir) = false) ->
  exists evs,
    run_scraper W v start_url t = (Ok tt, t ++ evs) /\ exports evs = [].
Proof.
  intros Hdir.
  destruct (run_scraper_shape W v start_url t)
    as (evs12 & He & [Hrun|(sanitized & rows & _ & Hrun)]).
  - by exists evs12.
  - rewrite Hrun, save_results_cases, Hdir.
    exists (evs12 ++ [EvCreatePath OUTPUT_DIR]).
    rewrite exports_app, He, app_assoc. done.
Qed.

(** X9 on the sample site with a disk that refuses the directory. *)
Lemma run_scraper_without_output_dir_witness :
  exists evs,
    run_scraper SampleMore.world_readonly GScraper Sample.start_url []
    = (Ok tt, [] ++ evs)
    /\ exports evs = [].
Proof.
  apply (run_scraper_without_output_dir SampleMore.world_readonly GScraper
           Sample.start_url []).
  intros t' dir. reflexivity.
Defined.

(** X10.  A run writes at most one spreadsheet; when it writes one, that
    is its last call, it comes right after the creation of the output
    directory, and it has at least one row. *)
Theorem run_scraper_one_spreadsheet (W : World) (v : variant)
    (start_url : string) (t : trace) :
  exists evs,
    run_scraper W v start_url t = (Ok tt, t ++ evs)
    /\ (exports evs = []
        \/ exists before f rows,
            evs = before ++ [EvCreatePath OUTPUT_DIR; EvToExcel f rows]
            /\ exports before = []
            /\ rows <> []).
Proof.
  destruct (run_scraper_shape W v start_url t)
    as (evs12 & He & [Hrun|(sanitized & rows & Hrows & Hrun)]).
  - exists evs12. by split; [|left].
  - rewrite Hrun, save_results_cases.
    destruct (is_Ok (create_path W (t ++ evs12) OUTPUT_DIR)).
    + exists (evs12 ++ [EvCreatePath OUTPUT_DIR; EvToExcel (output_file sanitized) rows]).
      rewrite app_assoc. split; [done|right].
      by exists evs12, (output_file sanitized), rows.
    + exists (evs12 ++ [EvCreatePath OUTPUT_DIR]).
      rewrite app_assoc. split; [done|left].
      by rewrite exports_app, He.
Qed.

(** ** The rows of the spreadsheet *)

Lemma gather_Forall2 {A B} (f : A -> M B) (P : A -> B -> Prop) :
  (forall x t, exists y evs, f x t = (Ok y, t ++ evs) /\ P x y) ->
  forall l t, exists ys evs,
    gather f l t = (Ok ys, t ++ evs) /\ Forall2 P l ys.
Proof.
  intros Hf l. induction l as [|x l IH]; intros t.
  - exists [], []. simpl. unfold ret. rewrite app_nil_r. by split.
  - simpl. unfold bind.
    destruct (Hf x t) as (y & evs & -> & HP).
    destruct (IH (t ++ evs)) as (ys & evs' & -> & Hall).
    exists (y :: ys), (evs ++ evs'). unfold ret. rewrite app_assoc.
    split; [done|]. by constructor.
Qed.

(** What [build_details] puts in the fields of a record. *)
Lemma build_details_fields W tr url d :
  build_details W tr url = Ok d ->
  Hyperlink d = url
  /\ (exists q m,
        selector W "map_and_direction" = Ok q
        /\ safe_xpath_get_attrib tr q "href" EmptyString = Ok m
        /\ Map_and_direction d = origin +:+ m)
  /\ (exists text, Review_count d = re_sub_class ["("; ")"]%char text)
  /\ (exists q, safe_xpath_get_text tr q EmptyString = Ok (Business d))
  /\ (exists q, safe_xpath_get_text tr q EmptyString = Ok (Contact d))
  /\ (exists q, safe_xpath_get_text tr q EmptyString = Ok (Address d))
  /\ (exists q, safe_xpath_get_attrib tr q "src" EmptyString = Ok (Images d))
  /\ (exists q, safe_xpath_get_attrib tr q "href" EmptyString = Ok (Website d)).
Proof.
  unfold build_details, rbind. intros H.
  repeat case_match; try discriminate.
  injection H as <-. simpl. repeat split; eauto.
Qed.

(** A record returned for a URL carries that URL. *)
Lemma scrape_business_details_hyperlink W v url t :
  exists r evs,
    scrape_business_details W v url t = (Ok r, t ++ evs)
    /\ forall d, r = Some d -> Hyperlink d = url.
Proof.
  unfold scrape_business_details, bind.
  destruct (fetch_and_parse_events W v url t) as (o & evs & -> & _).
  destruct o as [tr|]; [|by exists None, evs].
  destruct (build_details W tr url) as [d|] eqn:Hb; [|by exists None, evs].
  rewrite sleep_run. unfold ret. rewrite <- app_assoc.
  eexists _, _. split; [done|].
  intros d'. destruct (nonempty (Business d)); [|done].
  intros [= <-]. by apply build_details_fields in Hb as [? _].
Qed.

Lemma final_data_hyperlinks urls (results_details : list (option details)) :
  Forall2 (fun url r => forall d, r = Some d -> Hyperlink d = url)
    urls results_details ->
  sublist (map Hyperlink (final_data results_details)) urls.
Proof.
  induction 1 as [|url r urls rd Hr _ IH]; [constructor|].
  unfold final_data. simpl. destruct r as [d|]; simpl.
  - rewrite (Hr d eq_refl). by apply sublist_skip.
  - by apply sublist_cons.
Qed.

(** X11.  The rows of a spreadsheet carry, in their ["Hyperlink"], URLs
    of the merged set in the order of the tasks, each at most once: no
    two rows describe the same detail URL, every row comes from a link of
    a listing page, and there are at most as many rows as distinct
    URLs. *)
Theorem exported_rows_have_distinct_hyperlinks (W : World) (v : variant)
    (start_url : string) (t : trace) (evs : list event)
    (f : string) (rows : list details) :
  run_scraper W v start_url t = (Ok tt, t ++ evs) ->
  (f, rows) ∈ exports evs ->
  exists pages results evs1,
    yp_lists W v start_url = Ok pages
    /\ discovery W v pages t = (Ok results, t ++ evs1)
    /\ sublist (map Hyperlink rows) (elements (merge_results v results).1)
    /\ NoDup (map Hyperlink rows)
    /\ (forall d, d ∈ rows -> exists r, r ∈ results /\ Hyperlink d ∈ r.1)
    /\ length rows <= size (merge_results v results).1.
Proof.
  intros Hrun Hin.
  destruct (run_scraper_events W v start_url t) as (evs' & Hrun' & Hex).
  rewrite Hrun in Hrun'. injection Hrun' as Heq.
  apply app_inv_head in Heq. subst evs'.
  destruct Hex as [Hnil|(pages & results & evs1 & rd & evs2 & Hyp & Hd & Hen & Hex)].
  { rewrite Hnil in Hin. by apply elem_of_nil in Hin. }
  rewrite Hex in Hin. apply list_elem_of_singleton in Hin. injection Hin as -> ->.
  exists pages, results, evs1. split; [done|]. split; [done|].
  destruct (gather_Forall2 (scrape_business_details W v)
              (fun url r => forall d, r = Some d -> Hyperlink d = url)
              (scrape_business_details_hyperlink W v)
              (elements (merge_results v results).1) (t ++ evs1))
    as (rd' & evs2' & Hg & Hall).
  unfold enrichment in Hen. rewrite Hen in Hg. injection Hg as <- _.
  apply final_data_hyperlinks in Hall.
  split; [done|]. split; [|split].
  - apply (sublist_NoDup _ (elements (merge_results v results).1));
      [apply NoDup_elements|done].
  - intros d Hd'. apply merge_results_urls with (v := v).
    apply elem_of_elements.
    apply (elem_of_sublist _ _ _ (list_elem_of_fmap_2 Hyperlink _ _ Hd') Hall).
  - apply sublist_length in Hall. by rewrite length_map in Hall.
Qed.

(** X11 on the run over the sample site. *)
Lemma exported_rows_have_distinct_hyperlinks_witness :
  exists pages results evs1,
    yp_lists Sample.world GScraper Sample.start_url = Ok pages
    /\ discovery Sample.world GScraper pages [] = (Ok results, [] ++ evs1)
    /\ sublist (map Hyperlink [Sample.joes])
         (elements (merge_results GScraper results).1)
    /\ NoDup (map Hyperlink [Sample.joes])
    /\ (forall d, d ∈ [Sample.joes] ->
                  exists r, r ∈ results /\ Hyperlink d ∈ r.1)
    /\ length [Sample.joes] <= size (merge_results GScraper results).1.
Proof.
  apply (exported_rows_have_distinct_hyperlinks Sample.world GScraper
           Sample.start_url []
           (run_scraper Sample.world GScraper Sample.start_url []).2
           "Yellowpage_database/Pizza.xlsx" [Sample.joes]).
  - vm_compute. reflexivity.
  - vm_compute. left.
Defined.

(** ** The fields of a record *)

Lemma startswith_app p s : startswith p (p +:+ s) = true.
Proof. induction p as [|c p IH]; simpl; [done|]. by rewrite Ascii.eqb_refl. Qed.

(** X12.  In every record that is built, ["Hyperlink"] is the URL of the
    task, ["Map and direction"] begins with the origin and is the bare
    origin when the map selector matches nothing, and ["Review count"]
    holds no parenthesis. *)
Theorem build_details_field_values (W : World) (tr : tree)
    (business_url : string) (d : details) :
  build_details W tr business_url = Ok d ->
  Hyperlink d = business_url
  /\ startswith "https://www.yellowpages.com" (Map_and_direction d) = true
  /\ (forall q,
        SELECTORS W !! "map_and_direction" = Some q ->
        xpath tr q = Ok (XNodes []) ->
        Map_and_direction d = "https://www.yellowpages.com")
  /\ (forall c, c ∈ list_ascii_of_string (Review_count d) ->
                c <> "("%char /\ c <> ")"%char).
Proof.
  intros Hb.
  apply build_details_fields in Hb
    as (Hh & (qm & m & Hq & Hm & Hmap) & (text & Hrc) & _).
  split; [done|]. split; [|split].
  - rewrite Hmap. apply (startswith_app origin).
  - intros q Hsel Hx. unfold selector in Hq. rewrite Hsel in Hq.
    injection Hq as <-. unfold safe_xpath_get_attrib in Hm.
    rewrite Hx in Hm. simpl in Hm. injection Hm as <-. by rewrite Hmap.
  - intros c Hc. rewrite Hrc in Hc.
    apply re_sub_class_chars in Hc as [_ Hc].
    split; intros ->; apply Hc; [left|right; left].
Qed.

(** X12 on Joe's page of the sample site. *)
Lemma build_details_field_values_witness :
  Hyperlink Sample.joes = "https://www.yellowpages.com/mip/joes-pizza-1"
  /\ startswith "https://www.yellowpages.com"
       (Map_and_direction Sample.joes) = true.
Proof.
  destruct (build_details_field_values Sample.world Sample.detail_joes
              "https://www.yellowpages.com/mip/joes-pizza-1" Sample.joes
              ltac:(vm_compute; reflexivity)) as (H1 & H2 & _).
  exact (conj H1 H2).
Defined.

Lemma lstrip_first s c : first_char (lstrip s) = Some c -> isspace c = false.
Proof.
  induction s as [|a s IH]; simpl; [done|].
  destruct (isspace a) eqn:Ha; [done|]. simpl. by intros [= <-].
Qed.

Lemma rstrip_first s c : first_char (rstrip s) = Some c -> first_char s = Some c.
Proof.
  destruct s as [|a s]; simpl; [done|].
  destruct (rstrip s); [|done]. by destruct (isspace a).
Qed.

Lemma rstrip_last s c : last_char (rstrip s) = Some c -> isspace c = false.
Proof.
  induction s as [|a s IH]; simpl; [done|].
  destruct (rstrip s) as [|b r].
  - destruct (isspace a) eqn:Ha; simpl; [done|]. by intros [= <-].
  - exact IH.
Qed.

Lemma strip_stripped s : stripped (strip s).
Proof.
  split; intros c.
  - intros H%rstrip_first. by apply lstrip_first in H.
  - apply rstrip_last.
Qed.

Lemma stripped_empty : stripped EmptyString.
Proof. by split. Qed.

Lemma safe_xpath_get_text_stripped tr q s :
  safe_xpath_get_text tr q EmptyString = Ok s -> stripped s.
Proof.
  unfold safe_xpath_get_text, joined_text, rbind.
  destruct (xpath tr q) as [elements|]; [|done].
  destruct (truthy elements); [|intros [= <-]; apply stripped_empty].
  destruct (py_iter elements); [|done].
  destruct (rmapM item_text_content _); [|done].
  intros [= <-]. apply strip_stripped.
Qed.

Lemma safe_xpath_get_attrib_stripped tr q attr s :
  safe_xpath_get_attrib tr q attr EmptyString = Ok s -> stripped s.
Proof.
  unfold safe_xpath_get_attrib, rbind.
  destruct (xpath tr q) as [elements|]; [|done].
  destruct (truthy elements); [|intros [= <-]; apply stripped_empty].
  destruct (first_item elements) as [x|]; [|done].
  destruct (item_get x attr EmptyString); [|done].
  intros [= <-]. apply strip_stripped.
Qed.

(** X13.  In every record that is built, the business name, the contact,
    the address, the image and the website neither begin nor end with
    whitespace. *)
Theorem build_details_stripped_fields (W : World) (tr : tree)
    (business_url : string) (d : details) :
  build_details W tr business_url = Ok d ->
  stripped (Business d) /\ stripped (Contact d) /\ stripped (Address d)
  /\ stripped (Images d) /\ stripped (Website d).
Proof.
  intros Hb.
  apply build_details_fields in Hb
    as (_ & _ & _ & (q1 & H1) & (q2 & H2) & (q3 & H3) & (q4 & H4) & (q5 & H5)).
  split_and!;
    eauto using safe_xpath_get_text_stripped, safe_xpath_get_attrib_stripped.
Qed.

(** X13 on Joe's page of the sample site. *)
Lemma build_details_stripped_fields_witness :
  stripped (Business Sample.joes) /\ stripped (Contact Sample.joes)
  /\ stripped (Address Sample.joes) /\ stripped (Images Sample.joes)
  /\ stripped (Website Sample.joes).
Proof.
  apply (build_details_stripped_fields Sample.world Sample.detail_joes
           "https://www.yellowpages.com/mip/joes-pizza-1" Sample.joes).
  vm_compute. reflexivity.
Defined.

(** ** Selectors that yield strings instead of elements *)

Lemma rmapM_text_content_string items s :
  XString s ∈ items -> is_Ok (rmapM item_text_content items) = false.
Proof.
  induction items as [|x items IH]; [by intros ?%elem_of_nil|].
  intros [<-|Hin]%elem_of_cons; simpl; [done|].
  destruct x as [el|s']; simpl; [|done].
  specialize (IH Hin). by destruct (rmapM item_text_content items).
Qed.

Lemma safe_xpath_get_text_string tr q items s default :
  xpath tr q = Ok (XNodes items) ->
  XString s ∈ items ->
  is_Ok (safe_xpath_get_text tr q default) = false.
Proof.
  intros Hx Hin. unfold safe_xpath_get_text, joined_text, rbind. rewrite Hx.
  simpl. destruct items as [|x items]; [by apply elem_of_nil in Hin|].
  pose proof (rmapM_text_content_string _ _ Hin) as Hr.
  by destruct (rmapM item_text_content (x :: items)).
Qed.

Lemma safe_xpath_get_attrib_string tr q s rest attr default :
  xpath tr q = Ok (XNodes (XString s :: rest)) ->
  is_Ok (safe_xpath_get_attrib tr q attr default) = false.
Proof. intros Hx. unfold safe_xpath_get_attrib, rbind. by rewrite Hx. Qed.

(** A record is built only when every text selector and every attribute
    selector has given a value. *)
Lemma build_details_selected W tr url d :
  build_details W tr url = Ok d ->
  Forall (fun key => exists q,
              SELECTORS W !! key = Some q
              /\ is_Ok (safe_xpath_get_text tr q EmptyString) = true) text_keys
  /\ Forall (fun key => exists q attr,
                 SELECTORS W !! key = Some q
                 /\ is_Ok (safe_xpath_get_attrib tr q attr EmptyString) = true)
       attrib_keys.
Proof.
  unfold build_details, rbind, selector. intros H.
  repeat case_match; try discriminate. simplify_eq.
  split; repeat constructor;
    repeat match goal with
           | H : safe_xpath_get_text _ ?q _ = Ok _ |- exists _, _ /\ _ =>
               exists q; split; [eassumption|by rewrite H]
           | H : safe_xpath_get_attrib _ ?q ?a _ = Ok _ |- exists _ _, _ /\ _ =>
               exists q, a; split; [eassumption|by rewrite H]
           end.
Qed.

(** X14.  A selector of the wrong kind costs the whole record: when a
    text selector yields a string among its results (a query that ends in
    [text()] or in an attribute), or an attribute selector yields a string
    first, the detail task returns [None] for the page. *)
Theorem string_results_drop_the_record (W : World) (v : variant)
    (url : string) (t : trace) (tr : tree) (key q : string)
    (items : list xitem) :
  (fetch_and_parse W v url t).1 = Ok (Some tr) ->
  SELECTORS W !! key = Some q ->
  xpath tr q = Ok (XNodes items) ->
  (key ∈ text_keys /\ exists s, XString s ∈ items)
  \/ (key ∈ attrib_keys /\ exists s rest, items = XString s :: rest) ->
  (scrape_business_details W v url t).1 = Ok None.
Proof.
  intros Hfetch Hsel Hx Hkind. unfold scrape_business_details, bind.
  destruct (fetch_and_parse W v url t) as [r t']. simpl in Hfetch. subst r.
  destruct (build_details W tr url) as [d|] eqn:Hb; [exfalso|done].
  apply build_details_selected in Hb as [Htext Hattr].
  rewrite Forall_forall in Htext, Hattr.
  destruct Hkind as [[Hkey (s & Hs)]|[Hkey (s & rest & ->)]].
  - destruct (Htext key Hkey) as (q' & Hq' & Hok).
    rewrite Hsel in Hq'. injection Hq' as <-.
    by rewrite (safe_xpath_get_text_string _ _ _ _ _ Hx Hs) in Hok.
  - destruct (Hattr key Hkey) as (q' & attr & Hq' & Hok).
    rewrite Hsel in Hq'. injection Hq' as <-.
    by rewrite (safe_xpath_get_attrib_string _ _ _ _ _ _ Hx) in Hok.
Qed.

(** X14 on a page that has a name, read with a website selector that
    ends in [/@href]. *)
Lemma string_results_drop_the_record_witness :
  (scrape_business_details SampleMore.world GScraper
     "https://www.yellowpages.com/mip/joes-pizza-1" []).1 = Ok None.
Proof.
  apply (string_results_drop_the_record SampleMore.world GScraper
           "https://www.yellowpages.com/mip/joes-pizza-1" []
           SampleMore.detail_href "website" SampleMore.q_website_href
           [XString "http://joes.example.com"] eq_refl eq_refl eq_refl).
  right. split.
  - vm_compute. do 3 right. left.
  - by exists "http://joes.example.com", [].
Defined.

(** ** The URLs of the listing pages *)

Lemma listing_links_origin W tr links :
  listing_links W tr = Ok links ->
  Forall (fun u => startswith origin u = true) links.
Proof.
  unfold listing_links, rbind.
  destruct (selector W "business_urls") as [q|]; [|done].
  destruct (xpath tr q) as [raw|]; [|done].
  destruct (py_iter raw) as [items|]; [|done].
  intros [= <-]. apply Forall_forall. intros u (x & _ & Hx)%list_elem_of_omap.
  destruct x as [el|s]; [done|]. injection Hx as <-. apply startswith_app.
Qed.

Lemma get_business_urls_from_page_origin W v url t :
  exists r evs,
    get_business_urls_from_page W v url t = (Ok r, t ++ evs)
    /\ Forall (fun u => startswith origin u = true) r.1.
Proof.
  unfold get_business_urls_from_page, bind.
  destruct (fetch_and_parse_events W v url t) as (o & evs & -> & _).
  destruct o as [tr|]; [|by exists ([], None), evs].
  destruct (listing_category W tr) as [category|]; [|by exists ([], None), evs].
  destruct (listing_links W tr) as [links|] eqn:Hl; [|by exists ([], category), evs].
  apply listing_links_origin in Hl.
  destruct (listing_page_content W tr) as [content|];
    [|by exists (links, category), evs].
  destruct (re_search_prefix_ignorecase _ _); [by exists ([], category), evs|].
  rewrite sleep_run. unfold ret. rewrite <- app_assoc. by eexists _, _.
Qed.

(** X15.  Every detail request of a run goes to a URL that begins with
    "https://www.yellowpages.com": the links of the listing pages reach
    phase 2 only with the origin in front. *)
Theorem detail_requests_begin_with_origin (W : World) (v : variant)
    (start_url : string) (t : trace) (pages : list string)
    (results : list (list string * option string)) (evs1 : list event) :
  yp_lists W v start_url = Ok pages ->
  discovery W v pages t = (Ok results, t ++ evs1) ->
  exists evs2,
    requests (run_scraper W v start_url t).2
    = requests (t ++ evs1) ++ requests evs2
    /\ Forall (fun u => startswith "https://www.yellowpages.com" u = true)
         (requests evs2).
Proof.
  intros Hyp Hd.
  destruct (run_scraper_requests W v start_url t pages results evs1 Hyp Hd)
    as (evs2 & Hreq & Hsub & _).
  exists evs2. split; [done|]. apply Forall_forall. intros u Hu.
  apply (elem_of_sublist _ _ _ Hu) in Hsub.
  apply elem_of_elements, merge_results_urls in Hsub as (r & Hr & Hur).
  destruct (gather_inv (get_business_urls_from_page W v)
              (fun _ _ r _ => Forall (fun u => startswith origin u = true) r.1))
    with (l := pages) (t := t) as (ys & evs' & Hg & _ & Hys).
  { intros x t'.
    destruct (get_business_urls_from_page_origin W v x t') as (r' & e & -> & ?).
    by exists r', e. }
  unfold discovery in Hd. rewrite Hd in Hg. injection Hg as <- _.
  destruct (Hys r Hr) as (_ & _ & _ & _ & Hall).
  rewrite Forall_forall in Hall. by apply Hall.
Qed.

(** X15 on the run over the sample site. *)
Lemma detail_requests_begin_with_origin_witness :
  exists evs2,
    requests (run_scraper Sample.world GScraper Sample.start_url []).2
    = requests ([] ++ (discovery Sample.world GScraper
                         [Sample.start_url +:+ "&page=1";
                          Sample.start_url +:+ "&page=2"] []).2)
      ++ requests evs2
    /\ Forall (fun u => startswith "https://www.yellowpages.com" u = true)
         (requests evs2).
Proof.
  apply (detail_requests_begin_with_origin Sample.world GScraper
           Sample.start_url []
           [Sample.start_url +:+ "&page=1"; Sample.start_url +:+ "&page=2"]
           [(["https://www.yellowpages.com/mip/joes-pizza-1";
              "https://www.yellowpages.com/mip/marios-2"], Some "Pizza");
            (["https://www.yellowpages.com/mip/marios-2";
              "https://www.yellowpages.com/mip/anonymous-3"],
             Some "Pizza Restaurants")]
           (discovery Sample.world GScraper
              [Sample.start_url +:+ "&page=1";
               Sample.start_url +:+ "&page=2"] []).2
           eq_refl).
  vm_compute. reflexivity.
Defined.

(** X16.  GSscraper.py requests all nine listing pages of a search,
    whatever the pages answer: a page without results or a failed fetch
    does not end phase 1 early. *)
Theorem GSscraper_requests_all_nine_pages (W : World) (start_url : string)
    (t : trace) :
  userAgents_available W ->
  exists evs2,
    requests (run_scraper W GSscraper start_url t).2
    = requests t ++ GS_yp_lists start_url ++ requests evs2.
Proof.
  intros Hua.
  destruct (gather_requests W GSscraper (get_business_urls_from_page W GSscraper)
              (get_business_urls_from_page_events W GSscraper)
              (GS_yp_lists start_url) t) as (results & evs1 & Hg & _ & Hall & _).
  destruct (run_scraper_requests W GSscraper start_url t (GS_yp_lists start_url)
              results evs1 eq_refl Hg) as (evs2 & Hreq & _).
  exists evs2. by rewrite Hreq, requests_app, (Hall Hua), <- app_assoc.
Qed.

(** X16 on the sample site, which has two of the nine pages. *)
Lemma GSscraper_requests_all_nine_pages_witness :
  exists evs2,
    requests (run_scraper Sample.world GSscraper Sample.start_url []).2
    = requests [] ++ GS_yp_lists Sample.start_url ++ requests evs2.
Proof.
  apply (GSscraper_requests_all_nine_pages Sample.world Sample.start_url []).
  intros t. reflexivity.
Defined.

(** X17.  A page without results keeps its category: the listing task
    returns no URL together with the category found on the page, which can
    still name the export. *)
Theorem no_results_page_keeps_category (W : World) (v : variant)
    (url : string) (t : trace) (tr : tree) (category : option string)
    (q : string) (els : list element) :
  (fetch_and_parse W v url t).1 = Ok (Some tr) ->
  listing_category W tr = Ok category ->
  SELECTORS W !! "page_content" = Some q ->
  xpath tr q = Ok (XNodes (map XElement els)) ->
  begins_ignoring_case "No results found for"
    (strip (join " " (map text_content els))) ->
  (get_business_urls_from_page W v url t).1 = Ok ([], category).
Proof.
  intros Hfetch Hcat Hsel Hx Hbegin.
  apply re_search_prefix_ignorecase_spec in Hbegin.
  unfold get_business_urls_from_page, bind.
  destruct (fetch_and_parse W v url t) as [r t']. simpl in Hfetch. subst r.
  rewrite Hcat.
  destruct (listing_links W tr) as [links|]; [|done].
  assert (Hpc : listing_page_content W tr
                = Ok (strip (join " " (map text_content els)))).
  { unfold listing_page_content, selector. rewrite Hsel. simpl. rewrite Hx. simpl.
    apply joined_text_elements. }
  by rewrite Hpc, Hbegin.
Qed.

(** X17 on a page without results that shows the category "Pizza". *)
Lemma no_results_page_keeps_category_witness :
  (get_business_urls_from_page SampleMore.world GScraper
     "https://www.yellowpages.com/search?search_terms=closed" []).1
  = Ok ([], Some "Pizza").
Proof.
  apply (no_results_page_keeps_category SampleMore.world GScraper
           "https://www.yellowpages.com/search?search_terms=closed" []
           SampleMore.no_results_with_category (Some "Pizza")
           Sample.q_page_content
           [{| text_content := "No results found for pizza"; attrib := ∅ |}]
           eq_refl eq_refl eq_refl eq_refl).
  exists "No results found for", " pizza". split; reflexivity.
Defined.

(** ** The categories collected in phase 1 *)

Lemma merge_step_categories v acc r (c : string) :
  c ∈ (merge_step v acc r).2
  <-> c ∈ acc.2 \/ (c <> EmptyString /\ r.2 = Some c).
Proof.
  destruct acc as [urls cats], r as [links [c0|]]; simpl.
  2: { split; [by left|]. by intros [?|[_ ?]]. }
  destruct (nonempty c0) eqn:Hne; simpl.
  - apply nonempty_true in Hne.
    destruct v; simpl; [|case_bool_decide as Hin; simpl].
    + rewrite elem_of_app, list_elem_of_singleton. split.
      * intros [? | ->]; [by left|by right].
      * intros [?|[_ [= ->]]]; [by left|by right].
    + split; [by left|]. intros [?|[_ [= ->]]]; done.
    + rewrite elem_of_app, list_elem_of_singleton. split.
      * intros [? | ->]; [by left|by right].
      * intros [?|[_ [= ->]]]; [by left|by right].
  - split; [by left|]. intros [?|[Hc [= ->]]]; [done|].
    by destruct c.
Qed.

Lemma merge_fold_categories v l acc (c : string) :
  c ∈ (fold_left (merge_step v) l acc).2
  <-> c ∈ acc.2 \/ (c <> EmptyString /\ exists r, r ∈ l /\ r.2 = Some c).
Proof.
  revert acc. induction l as [|r l IH]; intros acc; simpl.
  - split; [by left|]. intros [?|[_ (r & Hr & _)]]; [done|].
    by apply elem_of_nil in Hr.
  - rewrite IH, merge_step_categories. split.
    + intros [[?|[? ?]]|[? (r' & Hr' & ?)]].
      * by left.
      * right. split; [done|]. exists r. split; [left|done].
      * right. split; [done|]. exists r'. split; [by right|done].
    + intros [?|[? (r' & [->|Hr']%elem_of_cons & ?)]].
      * by left; left.
      * by left; right.
      * right. split; [done|]. by exists r'.
Qed.

Lemma merge_fold_categories_NoDup l acc :
  NoDup acc.2 -> NoDup (fold_left (merge_step GSscraper) l acc).2.
Proof.
  revert acc. induction l as [|r l IH]; intros acc Hacc; simpl; [done|].
  apply IH. destruct acc as [urls cats], r as [links [c0|]]; simpl; [|done].
  destruct (nonempty c0); simpl; [|done].
  case_bool_decide as Hin; simpl; [done|].
  apply NoDup_app. split; [done|]. split; [|apply NoDup_singleton].
  intros x Hx ->%list_elem_of_singleton. done.
Qed.

(** X18.  [categories_found] holds exactly the non-empty categories that
    the listing pages returned, and in GSscraper.py it holds each of them
    once. *)
Theorem categories_found_members (v : variant)
    (results : list (list string * option string)) :
  (forall c, c ∈ (merge_results v results).2
             <-> c <> EmptyString /\ exists r, r ∈ results /\ r.2 = Some c)
  /\ NoDup (merge_results GSscraper results).2.
Proof.
  split.
  - intros c. unfold merge_results. rewrite merge_fold_categories. simpl.
    split; [|by right]. intros [H|H]; [|done]. by apply elem_of_nil in H.
  - apply merge_fold_categories_NoDup. simpl. constructor.
Qed.
